(** * The upload/analyze pipeline of [app/routes/upload.tsx]

    A shallow embedding of [handleAnalyze]: JavaScript values as an
    inductive type, strings as sequences of UTF-16 code units, the awaited
    platform calls ([fs.upload], [convertPdfToImage], [kv.set],
    [ai.feedback], [navigate]) as a type class over an abstract world, and
    the handler itself in a state monad whose completions are [Normal],
    [Return] (the early [return] statements) and [Throw]. *)

From Stdlib Require Import ZArith NArith List String Ascii Bool Lia DecimalString.
From stdpp Require Import base gmap list fin_maps.
Import ListNotations.

Local Open Scope N_scope.
Local Open Scope list_scope.

(** ** Strings *)

(** A JavaScript string is a sequence of UTF-16 code units. *)
Abbreviation CodeUnit := N (only parsing).
Abbreviation JsString := (list N) (only parsing).

(** [lit] embeds an ASCII literal of the source. *)
Definition lit (s : string) : JsString :=
  map N_of_ascii (list_ascii_of_string s).

Definition newline : CodeUnit := 10.

(** The set WhiteSpace + LineTerminator that [String.prototype.trim]
    removes. *)
Definition is_white_space (c : CodeUnit) : bool :=
  (c =? 9) || (c =? 10) || (c =? 11) || (c =? 12) || (c =? 13) || (c =? 32)
  || (c =? 160) || (c =? 5760) || ((8192 <=? c) && (c <=? 8202))
  || (c =? 8232) || (c =? 8233) || (c =? 8239) || (c =? 8287)
  || (c =? 12288) || (c =? 65279).

Fixpoint trim_start (s : JsString) : JsString :=
  match s with
  | [] => []
  | c :: s' => if is_white_space c then trim_start s' else s
  end.

Definition trim_end (s : JsString) : JsString := rev (trim_start (rev s)).

(** [s.trim()] *)
Definition trim (s : JsString) : JsString := trim_end (trim_start s).

Fixpoint starts_with (p s : JsString) : bool :=
  match p, s with
  | [], _ => true
  | _ :: _, [] => false
  | a :: p', b :: s' => (a =? b) && starts_with p' s'
  end.

(** Length of the match of the regular expression [p\n?] at the head of
    [s], for a literal [p] that [s] starts with: the literal, and greedily
    one newline after it. *)
Definition match_length (p s : JsString) : nat :=
  match drop (length p) s with
  | c :: _ => if c =? newline then S (length p) else length p
  | [] => length p
  end.

(** [s.replace(/p\n?/g, '')] for a non-empty literal [p]: the matches are
    found from left to right and do not overlap; [skip] counts the code
    units of the current match that are still to be dropped. *)
Fixpoint replace_go (p : JsString) (skip : nat) (s : JsString) : JsString :=
  match s with
  | [] => []
  | c :: s' =>
      match skip with
      | S k => replace_go p k s'
      | O =>
          if starts_with p s
          then replace_go p (pred (match_length p s)) s'
          else c :: replace_go p 0 s'
      end
  end.

Definition replace_all (p s : JsString) : JsString := replace_go p 0 s.

Definition fence : JsString := lit "```".
Definition fence_json : JsString := lit "```json".

(** Line 92:
    [feedbackText.replace(/```json\n?/g, '').replace(/```\n?/g, '').trim()] *)
Definition cleanFeedbackText (feedbackText : JsString) : JsString :=
  trim (replace_all fence (replace_all fence_json feedbackText)).

(** [p] occurs in [s] as a contiguous substring. *)
Definition occurs_in (p s : JsString) : Prop :=
  exists pre post, s = pre ++ p ++ post.

Fixpoint occursb (p s : JsString) : bool :=
  starts_with p s ||
  match s with
  | [] => false
  | _ :: s' => occursb p s'
  end.

(** ** Values *)

(** Numbers: only their truthiness is observed by the handler. *)
Inductive JsNum : Type :=
| NaN
| Infinity (negative : bool)
| Finite (num : Z) (den : positive).

#[warnings="-register-all"] Inductive JsVal : Type :=
| VUndefined
| VNull
| VBool (b : bool)
| VNum (n : JsNum)
| VStr (s : JsString)
| VArr (items : list JsVal)
| VObj (props : list (JsString * JsVal)).

(** What a [throw] carries: an instance of [Error] with its message, or
    any other value. *)
Inductive Exn : Type :=
| ErrorInstance (message : JsString)
| Thrown (v : JsVal).

(** Result of evaluating an expression or of awaiting a promise. *)
Inductive Outcome (A : Type) : Type :=
| Ok (a : A)
| Err (e : Exn).
Arguments Ok {A} a.
Arguments Err {A} e.

Definition obind {A B} (o : Outcome A) (k : A -> Outcome B) : Outcome B :=
  match o with
  | Ok a => k a
  | Err e => Err e
  end.

(** ToBoolean *)
Definition truthy (v : JsVal) : bool :=
  match v with
  | VUndefined | VNull => false
  | VBool b => b
  | VNum NaN => false
  | VNum (Infinity _) => true
  | VNum (Finite num _) => negb (num =? 0)%Z
  | VStr s => match s with [] => false | _ :: _ => true end
  | VArr _ | VObj _ => true
  end.

Definition typeof (v : JsVal) : JsString :=
  match v with
  | VUndefined => lit "undefined"
  | VNull => lit "object"
  | VBool _ => lit "boolean"
  | VNum _ => lit "number"
  | VStr _ => lit "string"
  | VArr _ | VObj _ => lit "object"
  end.

(** [Array.isArray] *)
Definition isArray (v : JsVal) : bool :=
  match v with
  | VArr _ => true
  | _ => false
  end.

Definition js_string_eqb (a b : JsString) : bool := bool_decide (a = b).

(** [v === 'k'] for a string literal *)
Definition strict_eq_lit (v : JsVal) (k : JsString) : bool :=
  match v with
  | VStr s => js_string_eqb s k
  | _ => false
  end.

Fixpoint lookup_prop (k : JsString) (props : list (JsString * JsVal)) : JsVal :=
  match props with
  | [] => VUndefined
  | (k', v) :: rest => if js_string_eqb k' k then v else lookup_prop k rest
  end.

Definition type_error_read (what k : JsString) : Exn :=
  ErrorInstance
    (lit "Cannot read properties of " ++ what ++ lit " (reading '" ++ k ++ lit "')").

(** [v.k] for one of the data properties the handler reads ([path], [file],
    [message], [content], [type], [text], [overallScore], [ATS]): a
    TypeError on [undefined] and [null], the own property of an object,
    [undefined] on everything else. *)
Definition get_prop (v : JsVal) (k : JsString) : Outcome JsVal :=
  match v with
  | VUndefined => Err (type_error_read (lit "undefined") k)
  | VNull => Err (type_error_read (lit "null") k)
  | VObj props => Ok (lookup_prop k props)
  | _ => Ok VUndefined
  end.

(** [v?.k] *)
Definition get_prop_opt (v : JsVal) (k : JsString) : Outcome JsVal :=
  match v with
  | VUndefined | VNull => Ok VUndefined
  | _ => get_prop v k
  end.

(** [obj.k = v] on an object literal that already has the property. *)
Fixpoint assign_prop (k : JsString) (v : JsVal) (props : list (JsString * JsVal))
  : list (JsString * JsVal) :=
  match props with
  | [] => [(k, v)]
  | (k', v') :: rest =>
      if js_string_eqb k' k then (k, v) :: rest else (k', v') :: assign_prop k v rest
  end.

(** [a || b] *)
Definition js_or (a b : JsVal) : JsVal := if truthy a then a else b.

(** [items.find(pred)] *)
Fixpoint array_find (pred : JsVal -> Outcome bool) (items : list JsVal)
  : Outcome JsVal :=
  match items with
  | [] => Ok VUndefined
  | item :: rest =>
      match pred item with
      | Err e => Err e
      | Ok true => Ok item
      | Ok false => array_find pred rest
      end
  end.

(** Line 81, the callback [(item) => item.type === 'text' || item.text] *)
Definition is_text_item (item : JsVal) : Outcome bool :=
  obind (get_prop item (lit "type")) (fun ty =>
  if strict_eq_lit ty (lit "text") then Ok true
  else obind (get_prop item (lit "text")) (fun tx => Ok (truthy tx))).

(** An item whose [type] is ['text']. *)
Definition text_flagged (item : JsVal) : bool :=
  match get_prop item (lit "type") with
  | Ok ty => strict_eq_lit ty (lit "text")
  | Err _ => false
  end.

(** Lines 77-83: the value of [feedbackText] after the format dispatch. *)
Definition extractFeedbackText (feedback : JsVal) : Outcome JsVal :=
  obind (get_prop feedback (lit "message")) (fun message =>
  obind (get_prop message (lit "content")) (fun content =>
  if js_string_eqb (typeof content) (lit "string") then Ok content
  else if isArray content then
    match content with
    | VArr items =>
        obind (array_find is_text_item items) (fun textContent =>
        obind (get_prop_opt textContent (lit "text")) (fun t =>
        obind (get_prop_opt textContent (lit "content")) (fun c =>
        Ok (js_or (js_or t c) (VStr [])))))
    | _ => Ok (VStr [])
    end
  else Ok (VStr []))).

(** [feedbackText.replace(...).replace(...).trim()] on whatever value the
    dispatch produced: only a string has a [replace] method. *)
Definition clean_value (feedbackText : JsVal) : Outcome JsString :=
  match feedbackText with
  | VStr s => Ok (cleanFeedbackText s)
  | _ => Err (ErrorInstance (lit "feedbackText.replace is not a function"))
  end.

(** ** The platform *)

(** The collaborators of the handler. Each awaited call resolves ([Ok]) or
    rejects ([Err]) and may change the outside world [W]. [navigate] is
    called without [await]: its [Ok] is a call that returned and its [Err] a
    call that threw; what a promise it returns does afterwards is not part
    of the run. [JSON_parse] and [JSON_stringify] are the language
    built-ins; [generateUUID] and [prepareInstructions] come from
    [~/lib/utils] and [constants]. *)
Class Platform (W : Type) : Type := {
  fs_upload : list JsVal -> W -> Outcome JsVal * W;
  convertPdfToImage : JsVal -> W -> Outcome JsVal * W;
  kv_set : JsString -> JsString -> W -> Outcome JsVal * W;
  ai_feedback : JsVal -> JsVal -> W -> Outcome JsVal * W;
  navigate : JsString -> W -> Outcome unit * W;
  generateUUID : W -> Outcome JsString * W;
  prepareInstructions : JsString -> JsString -> Outcome JsVal;
  JSON_parse : JsString -> Outcome JsVal;
  JSON_stringify : JsVal -> JsString
}.

(** One entry of the log of external calls: the arguments and the result. *)
Inductive Call : Type :=
| CUpload (files : list JsVal) (r : Outcome JsVal)
| CConvert (file : JsVal) (r : Outcome JsVal)
| CKvSet (key value : JsString) (r : Outcome JsVal)
| CFeedback (path instructions : JsVal) (r : Outcome JsVal)
| CNavigate (to : JsString) (r : Outcome unit).

Inductive Completion (A : Type) : Type :=
| Normal (a : A)
| Return (v : JsVal)
| Throw (e : Exn).
Arguments Normal {A} a.
Arguments Return {A} v.
Arguments Throw {A} e.

Section Handler.

Context {W : Type} `{Platform W}.

(** The component state ([isProcessing], [statusText]), the outside world,
    the key/value store, and the two logs the properties are stated on. *)
Record St : Type := mkSt {
  world : W;
  isProcessing : bool;
  statusText : JsString;
  kv : gmap JsString JsString;
  calls : list Call;
  parser_inputs : list JsString
}.

Definition M (A : Type) : Type := St -> Completion A * St.

Definition ret {A} (a : A) : M A := fun st => (Normal a, st).

Definition bind {A B} (c : M A) (k : A -> M B) : M B :=
  fun st =>
    match c st with
    | (Normal a, st') => k a st'
    | (Return v, st') => (Return v, st')
    | (Throw e, st') => (Throw e, st')
    end.

Notation "'let*' x ':=' c 'in' k" := (bind c (fun x => k))
  (at level 10, x name, c at level 100, k at level 200).
Notation "c ;; k" := (bind c (fun _ => k))
  (at level 100, k at level 200, right associativity).

(** [return c] *)
Definition return_with {A} (c : M JsVal) : M A :=
  fun st =>
    match c st with
    | (Normal v, st') => (Return v, st')
    | (Return v, st') => (Return v, st')
    | (Throw e, st') => (Throw e, st')
    end.

(** [if (b) { c }] *)
Definition when (b : bool) (c : M unit) : M unit :=
  if b then c else ret tt.

(** [try { body } catch (e) { handler }] *)
Definition try_catch {A} (body : M A) (handler : Exn -> M A) : M A :=
  fun st =>
    match body st with
    | (Throw e, st') => handler e st'
    | r => r
    end.

(** The completion of an expression that has no effect on the state. *)
Definition eval {A} (o : Outcome A) : M A :=
  fun st =>
    match o with
    | Ok a => (Normal a, st)
    | Err e => (Throw e, st)
    end.

Definition log_call (c : Call) (st : St) : St :=
  mkSt (world st) (isProcessing st) (statusText st) (kv st)
       (calls st ++ [c]) (parser_inputs st).

Definition with_world (w : W) (st : St) : St :=
  mkSt w (isProcessing st) (statusText st) (kv st) (calls st) (parser_inputs st).

(** [await] of a platform call: the world moves on, the call is logged. *)
Definition await {A} (call : W -> Outcome A * W) (entry : Outcome A -> Call) : M A :=
  fun st =>
    let (r, w') := call (world st) in
    eval r (log_call (entry r) (with_world w' st)).

Definition setIsProcessing (b : bool) : M JsVal :=
  fun st =>
    (Normal VUndefined,
     mkSt (world st) b (statusText st) (kv st) (calls st) (parser_inputs st)).

Definition setStatusText (s : JsString) : M JsVal :=
  fun st =>
    (Normal VUndefined,
     mkSt (world st) (isProcessing st) s (kv st) (calls st) (parser_inputs st)).

(** The console is not part of the model. *)
Definition console_log : M JsVal := ret VUndefined.
Definition console_error : M JsVal := ret VUndefined.

Definition await_fs_upload (files : list JsVal) : M JsVal :=
  await (fs_upload files) (CUpload files).

Definition await_convertPdfToImage (file : JsVal) : M JsVal :=
  await (convertPdfToImage file) (CConvert file).

Definition await_ai_feedback (path instructions : JsVal) : M JsVal :=
  await (ai_feedback path instructions) (CFeedback path instructions).

(** [navigate(to)], line 120: a plain call, not awaited. *)
Definition call_navigate (to : JsString) : M unit :=
  await (navigate to) (CNavigate to).

Definition call_generateUUID : M JsString :=
  fun st =>
    let (r, w') := generateUUID (world st) in
    eval r (with_world w' st).

(** Modelled from the spec: the key/value service [set(key, serializedValue)]
    of [~/lib/puter]. A call that resolves has bound [key] to [value] in
    the store; a call that rejects leaves the store as it was. *)
Definition store_set (key value : JsString) (r : Outcome JsVal) (st : St) : St :=
  match r with
  | Ok _ =>
      mkSt (world st) (isProcessing st) (statusText st)
           (<[key := value]> (kv st)) (calls st) (parser_inputs st)
  | Err _ => st
  end.

Definition await_kv_set (key value : JsString) : M JsVal :=
  fun st =>
    let (r, w') := kv_set key value (world st) in
    eval r (store_set key value r (log_call (CKvSet key value r) (with_world w' st))).

(** [JSON.parse(text)], with its argument recorded. *)
Definition call_JSON_parse (text : JsString) : M JsVal :=
  fun st =>
    eval (JSON_parse text)
         (mkSt (world st) (isProcessing st) (statusText st) (kv st) (calls st)
               (parser_inputs st ++ [text])).

(** The object literal of lines 51-59. *)
Definition resume_record (uuid : JsString) (resumePath imagePath : JsVal)
    (companyName jobTitle jobDescription : JsString) (feedback : JsVal)
  : list (JsString * JsVal) :=
  [ (lit "id", VStr uuid);
    (lit "resumePath", resumePath);
    (lit "imagePath", imagePath);
    (lit "companyName", VStr companyName);
    (lit "jobTitle", VStr jobTitle);
    (lit "jobDescription", VStr jobDescription);
    (lit "feedback", feedback) ].

(** [`Error: ${err instanceof Error ? err.message : 'Unknown error occurred'}`] *)
Definition error_status (err : Exn) : JsString :=
  lit "Error: " ++
  match err with
  | ErrorInstance message => message
  | Thrown _ => lit "Unknown error occurred"
  end.

(** The body of [handleAnalyze], lines 24-125. *)
Definition handleAnalyze_body
    (companyName jobTitle jobDescription : JsString) (file : JsVal) : M unit :=
  try_catch (
    setIsProcessing true ;;
    setStatusText (lit "Uploading Resume...") ;;

    let* uploadedFile := await_fs_upload [file] in
    when (negb (truthy uploadedFile)) (
      setIsProcessing false ;;
      return_with (setStatusText (lit "Failed to upload file. Please try again."))) ;;

    setStatusText (lit "Converting to Image...") ;;
    let* ImageFile := await_convertPdfToImage file in
    let* ImageFile_file := eval (get_prop ImageFile (lit "file")) in
    when (negb (truthy ImageFile_file)) (
      setIsProcessing false ;;
      return_with (setStatusText (lit "Failed to convert file to image."))) ;;

    setStatusText (lit "Uploading the Image") ;;
    let* uploadedImage := await_fs_upload [ImageFile_file] in
    when (negb (truthy uploadedImage)) (
      setIsProcessing false ;;
      return_with (setStatusText (lit "Failed to upload File. Please try again."))) ;;

    setStatusText (lit "perparing Data ...") ;;
    let* uuid := call_generateUUID in

    let* resumePath := eval (get_prop uploadedFile (lit "path")) in
    let* imagePath := eval (get_prop uploadedImage (lit "path")) in
    let data :=
      resume_record uuid resumePath imagePath companyName jobTitle jobDescription
                    (VStr []) in
    await_kv_set (lit "resume:" ++ uuid) (JSON_stringify (VObj data)) ;;

    setStatusText (lit "Analyzing ...") ;;

    let* path := eval (get_prop uploadedFile (lit "path")) in
    let* instructions := eval (prepareInstructions jobTitle jobDescription) in
    let* feedback := await_ai_feedback path instructions in

    when (negb (truthy feedback)) (
      setIsProcessing false ;;
      return_with (setStatusText (lit "Failed to analyze resume. Please try again."))) ;;

    console_log ;;

    let* feedbackText := eval (extractFeedbackText feedback) in

    when (negb (truthy feedbackText)) (
      console_error ;;
      setIsProcessing false ;;
      return_with (setStatusText (lit "Invalid AI response format. Please try again."))) ;;

    let* feedbackText := eval (clean_value feedbackText) in

    console_log ;;

    let* parsedFeedback :=
      try_catch (call_JSON_parse feedbackText) (fun parseError =>
        console_error ;;
        setIsProcessing false ;;
        return_with (setStatusText (lit "Failed to parse AI response. Please try again."))) in

    let* overallScore := eval (get_prop parsedFeedback (lit "overallScore")) in
    let* invalid :=
      if negb (truthy overallScore) then ret true
      else let* ATS := eval (get_prop parsedFeedback (lit "ATS")) in
           ret (negb (truthy ATS)) in
    when invalid (
      console_error ;;
      setIsProcessing false ;;
      return_with (setStatusText (lit "Invalid feedback format from AI. Please try again."))) ;;

    let data := assign_prop (lit "feedback") parsedFeedback data in

    await_kv_set (lit "resume:" ++ uuid) (JSON_stringify (VObj data)) ;;

    setStatusText (lit "Analysis Complete! Redirecting...") ;;

    console_log ;;
    call_navigate (lit "/resume/" ++ uuid)
  ) (fun err =>
    console_error ;;
    setIsProcessing false ;;
    setStatusText (error_status err) ;;
    ret tt).

(** The call [handleAnalyze({companyName, jobTitle, jobDescription, file})]:
    the promise it returns is fulfilled with the returned value, or rejected
    with what the body throws. *)
Definition handleAnalyze
    (companyName jobTitle jobDescription : JsString) (file : JsVal)
    (st : St) : Outcome JsVal * St :=
  match handleAnalyze_body companyName jobTitle jobDescription file st with
  | (Normal _, st') => (Ok VUndefined, st')
  | (Return v, st') => (Ok v, st')
  | (Throw e, st') => (Err e, st')
  end.

(** What the caller of the [async] function observes of a completion. *)
Definition settle {A} (c : Completion A) : Outcome JsVal :=
  match c with
  | Normal _ => Ok VUndefined
  | Return v => Ok v
  | Throw e => Err e
  end.

(** Weakest precondition of a command, used to walk through the handler
    one statement at a time. *)
Definition wp {A} (c : M A) (Q : Completion A -> St -> Prop) (st : St) : Prop :=
  let (r, st') := c st in Q r st'.

(** The state in which a run starts: both logs are empty. *)
Definition start (w : W) (store : gmap JsString JsString)
    (processing : bool) (status : JsString) : St :=
  mkSt w processing status store [] [].

End Handler.

Arguments St W : clear implicits.
Arguments lit : simpl never.
Arguments cleanFeedbackText : simpl never.
Arguments extractFeedbackText : simpl never.
Arguments clean_value : simpl never.
Arguments get_prop : simpl never.
Arguments truthy : simpl nomatch.
Arguments error_status : simpl never.
Arguments resume_record : simpl never.
Arguments assign_prop : simpl never.

(** ** Vocabulary of the properties *)

(** The status messages of the failure exits. *)
Definition failure_status (s : JsString) : Prop :=
  s = lit "Failed to upload file. Please try again." \/
  s = lit "Failed to convert file to image." \/
  s = lit "Failed to upload File. Please try again." \/
  s = lit "Failed to analyze resume. Please try again." \/
  s = lit "Invalid AI response format. Please try again." \/
  s = lit "Failed to parse AI response. Please try again." \/
  s = lit "Invalid feedback format from AI. Please try again." \/
  exists err, s = error_status err.

(** The run got to the end: [navigate] was called and returned. *)
Definition navigated {W} (st : St W) : Prop :=
  exists to, last (calls st) = Some (CNavigate to (Ok tt)).

(** The five kinds of external call, and the order the pipeline makes them in. *)
Inductive CallKind : Type := KUpload | KConvert | KKvSet | KFeedback | KNavigate.

Definition call_kind (c : Call) : CallKind :=
  match c with
  | CUpload _ _ => KUpload
  | CConvert _ _ => KConvert
  | CKvSet _ _ _ => KKvSet
  | CFeedback _ _ _ => KFeedback
  | CNavigate _ _ => KNavigate
  end.

Definition pipeline_order : list CallKind :=
  [KUpload; KConvert; KUpload; KKvSet; KFeedback; KKvSet; KNavigate].

(** The call came back, and passed the check the handler makes on its
    result: a truthy upload, a truthy [file] of the conversion, a truthy
    AI response. *)
Definition call_succeeded (c : Call) : bool :=
  match c with
  | CUpload _ (Ok v) => truthy v
  | CConvert _ (Ok v) =>
      match get_prop v (lit "file") with
      | Ok f => truthy f
      | Err _ => false
      end
  | CKvSet _ _ (Ok _) => true
  | CFeedback _ _ (Ok v) => truthy v
  | CNavigate _ (Ok _) => true
  | _ => false
  end.

(** Every call but the last one succeeded. *)
Fixpoint gated (cs : list Call) : bool :=
  match cs with
  | [] => true
  | c :: rest =>
      match rest with
      | [] => true
      | _ :: _ => call_succeeded c && gated rest
      end
  end.

Definition is_kv_set (c : Call) : bool :=
  match c with CKvSet _ _ _ => true | _ => false end.

Definition is_upload (c : Call) : bool :=
  match c with CUpload _ _ => true | _ => false end.

Definition is_navigate (c : Call) : bool :=
  match c with CNavigate _ _ => true | _ => false end.

(** The [kv.set] calls of a log, in order. *)
Definition kv_writes (cs : list Call) : list Call := List.filter is_kv_set cs.

(** The [feedback] invariant of a ResumeRecord: pending, or an object that
    has both required fields. *)
Definition feedback_ok (feedback : JsVal) : Prop :=
  feedback = VStr [] \/
  exists props, feedback = VObj props /\
    lookup_prop (lit "overallScore") props <> VUndefined /\
    lookup_prop (lit "ATS") props <> VUndefined.

(** The property is absent from the value. *)
Definition absent (v : JsVal) (k : JsString) : Prop := get_prop v k = Ok VUndefined.

(** The property is there and its value is truthy. *)
Definition truthy_prop (v : JsVal) (k : JsString) : Prop :=
  exists x, get_prop v k = Ok x /\ truthy x = true.

(** *** The ways a step of a run can have failed, read off its logs *)

Section Failures.

Context {W : Type} `{Platform W}.

(** A call was rejected or threw, or came back with a result that does not
    pass the handler's check (steps 1 to 5, and the navigation). *)
Definition call_failed (st : St W) : Prop :=
  exists c, In c (calls st) /\ call_succeeded c = false.

(** The same for the AI call alone (step 5). *)
Definition feedback_call_failed (st : St W) : Prop :=
  exists path instructions result,
    In (CFeedback path instructions result) (calls st) /\
    call_succeeded (CFeedback path instructions result) = false.

(** No non-empty string could be extracted from a truthy AI response
    (step 6, and the [replace] of step 7 on a value that is not a string). *)
Definition extraction_failed (st : St W) : Prop :=
  exists path instructions feedback,
    In (CFeedback path instructions (Ok feedback)) (calls st) /\
    truthy feedback = true /\
    ~ (exists s, extractFeedbackText feedback = Ok (VStr s) /\ s <> []).

(** [JSON.parse] threw on the text it was given (step 8). *)
Definition parse_failed (st : St W) : Prop :=
  exists text e, In text (parser_inputs st) /\ JSON_parse text = Err e.

(** The parsed value did not pass the check of line 107 (step 9). *)
Definition validation_failed (st : St W) : Prop :=
  exists text parsed,
    In text (parser_inputs st) /\ JSON_parse text = Ok parsed /\
    ~ (truthy_prop parsed (lit "overallScore") /\ truthy_prop parsed (lit "ATS")).

(** Some step failed. *)
Definition step_failed (st : St W) : Prop :=
  call_failed st \/ extraction_failed st \/ parse_failed st \/ validation_failed st.

(** A step after the first write failed: the AI call, the extraction, the
    parsing or the validation. *)
Definition later_step_failed (st : St W) : Prop :=
  feedback_call_failed st \/ extraction_failed st \/ parse_failed st \/
  validation_failed st.

End Failures.

(** ** A scripted platform

    A concrete instance of [Platform], used to run the handler on explicit
    inputs: the world is the number of calls made so far, and every
    collaborator answers from a script. *)

Record Script : Type := mkScript {
  script_upload : list JsVal -> Outcome JsVal;
  script_convert : JsVal -> Outcome JsVal;
  script_kv_set : JsString -> JsString -> Outcome JsVal;
  script_feedback : Outcome JsVal;
  script_navigate : JsString -> Outcome unit;
  script_parse : JsString -> Outcome JsVal
}.

Definition dquote : CodeUnit := 34.

Definition quoted (s : JsString) : JsString := [dquote] ++ s ++ [dquote].

Definition decimal (z : Z) : JsString :=
  lit (DecimalString.NilZero.string_of_int (Z.to_int z)).

(** The serializer of the scripted platform: JSON text without escapes;
    a number that is not an integer is written as a quotient. *)
Fixpoint serialize (v : JsVal) : JsString :=
  match v with
  | VUndefined | VNull => lit "null"
  | VBool b => if b then lit "true" else lit "false"
  | VNum NaN | VNum (Infinity _) => lit "null"
  | VNum (Finite num den) =>
      if (den =? 1)%positive then decimal num
      else decimal num ++ lit "/" ++ decimal (Z.pos den)
  | VStr s => quoted s
  | VArr items =>
      lit "[" ++
      (fix elements (l : list JsVal) : JsString :=
         match l with
         | [] => []
         | x :: rest =>
             match rest with
             | [] => serialize x
             | _ :: _ => serialize x ++ lit "," ++ elements rest
             end
         end) items ++
      lit "]"
  | VObj props =>
      lit "{" ++
      (fix members (l : list (JsString * JsVal)) : JsString :=
         match l with
         | [] => []
         | (k, x) :: rest =>
             match rest with
             | [] => quoted k ++ lit ":" ++ serialize x
             | _ :: _ => quoted k ++ lit ":" ++ serialize x ++ lit "," ++ members rest
             end
         end) props ++
      lit "}"
  end.

(** The parser of the scripted platform knows the texts of a table of
    values and rejects every other text. *)
Fixpoint parse_known (known : list JsVal) (text : JsString) : Outcome JsVal :=
  match known with
  | [] => Err (ErrorInstance (lit "Unexpected token"))
  | v :: rest => if js_string_eqb (serialize v) text then Ok v else parse_known rest text
  end.

Definition demo_uuid : JsString := lit "7c9e6679-7425-40de-944b-e07fc1f90ae7".

Instance scripted (s : Script) : Platform nat := {
  fs_upload files n := (script_upload s files, S n);
  convertPdfToImage file n := (script_convert s file, S n);
  kv_set key value n := (script_kv_set s key value, S n);
  ai_feedback path instructions n := (script_feedback s, S n);
  navigate to n := (script_navigate s to, S n);
  generateUUID n := (Ok demo_uuid, n);
  prepareInstructions jobTitle jobDescription :=
    Ok (VStr (lit "Analyze this resume for the job " ++ jobTitle ++ lit ": "
              ++ jobDescription));
  JSON_parse := script_parse s;
  JSON_stringify := serialize
}.

Definition demo_pdf : JsVal :=
  VObj [(lit "name", VStr (lit "resume.pdf")); (lit "type", VStr (lit "application/pdf"))].

Definition demo_png : JsVal :=
  VObj [(lit "name", VStr (lit "resume.png")); (lit "type", VStr (lit "image/png"))].

(** [fs.upload] answers with the path of the first file. *)
Definition demo_upload (files : list JsVal) : Outcome JsVal :=
  match files with
  | f :: _ =>
      match get_prop f (lit "name") with
      | Ok (VStr name) => Ok (VObj [(lit "path", VStr (lit "/uploads/" ++ name))])
      | _ => Ok VNull
      end
  | [] => Ok VNull
  end.

Definition demo_convert (file : JsVal) : Outcome JsVal :=
  Ok (VObj [(lit "imageUrl", VStr (lit "blob:resume.png")); (lit "file", demo_png)]).

(** The script in which every collaborator does its job, for a given AI
    response and a table of texts the parser accepts. *)
Definition answering (feedback : Outcome JsVal) (known : list JsVal) : Script :=
  mkScript demo_upload demo_convert
           (fun _ _ => Ok (VBool true))
           feedback
           (fun _ => Ok tt)
           (parse_known known).

Definition int (z : Z) : JsVal := VNum (Finite z 1).

Definition ats_part : JsVal :=
  VObj [(lit "score", int 90); (lit "tips", VArr [])].

(** [{"overallScore":85,"ATS":{"score":90,"tips":[]}}] *)
Definition good_feedback : JsVal :=
  VObj [(lit "overallScore", int 85); (lit "ATS", ats_part)].

(** [{"overallScore":0,"ATS":{"score":90,"tips":[]}}] *)
Definition zero_score_feedback : JsVal :=
  VObj [(lit "overallScore", int 0); (lit "ATS", ats_part)].

(** [{"ATS":{"score":90,"tips":[]}}] *)
Definition no_score_feedback : JsVal :=
  VObj [(lit "ATS", ats_part)].

(** The text of a value inside a Markdown fence, as the AI sends it. *)
Definition fenced (v : JsVal) : JsString :=
  lit "```json" ++ [newline] ++ serialize v ++ [newline] ++ lit "```".

(** [{ message: { role: 'assistant', content } }] *)
Definition ai_message (content : JsVal) : JsVal :=
  VObj [(lit "message",
         VObj [(lit "role", VStr (lit "assistant")); (lit "content", content)])].

Definition text_item (text : JsString) : JsVal :=
  VObj [(lit "type", VStr (lit "text")); (lit "text", VStr text)].

Definition known_feedback : list JsVal :=
  [good_feedback; zero_score_feedback; no_score_feedback].

(** The run of the handler on the scripted platform for the scenario of the
    specification, from an empty store. *)
Abbreviation acme_run s :=
  (handleAnalyze (H := scripted s) (lit "Acme") (lit "Engineer") (lit "Build things")
                 demo_pdf (start 0%nat ∅ false [])).

Definition demo_path : JsVal := VStr (lit "/uploads/resume.pdf").
Definition demo_image_path : JsVal := VStr (lit "/uploads/resume.png").
Definition demo_instructions : JsVal :=
  VStr (lit "Analyze this resume for the job Engineer: Build things").
Definition demo_key : JsString := lit "resume:" ++ demo_uuid.

Definition demo_record (feedback : JsVal) : JsVal :=
  VObj (resume_record demo_uuid demo_path demo_image_path
          (lit "Acme") (lit "Engineer") (lit "Build things") feedback).

(** The AI answers with the fenced text of a complete feedback object. *)
Definition good_script : Script :=
  answering (Ok (ai_message (VStr (fenced good_feedback)))) known_feedback.

(** The AI answers with a feedback object whose [overallScore] is 0. *)
Definition zero_score_script : Script :=
  answering (Ok (ai_message (VStr (fenced zero_score_feedback)))) known_feedback.

(** The same answer, sent as an array with one text item. *)
Definition zero_score_array_script : Script :=
  answering (Ok (ai_message (VArr [text_item (fenced zero_score_feedback)])))
            known_feedback.

(** The AI answers with a feedback object that has no [overallScore]. *)
Definition no_score_script : Script :=
  answering (Ok (ai_message (VStr (fenced no_score_feedback)))) known_feedback.

(** The AI answers with a number where the text should be. *)
Definition number_content_script : Script :=
  answering (Ok (ai_message (int 42))) known_feedback.

(** An item that is neither text-flagged nor carries a [text]. *)
Definition image_item : JsVal :=
  VObj [(lit "type", VStr (lit "image")); (lit "url", VStr (lit "blob:1"))].

(** An item that is not text-flagged but carries a [text]. *)
Definition note_item : JsVal :=
  VObj [(lit "type", VStr (lit "note")); (lit "text", VStr (lit "thinking"))].


(** ** The component around the handler *)

(** No leading white space. *)
Definition starts_clean (s : JsString) : Prop :=
  match s with
  | [] => True
  | c :: _ => is_white_space c = false
  end.

(** The error an awaited call was rejected with, or that the call of
    [navigate] threw, if it did. *)
Definition call_error (c : Call) : option Exn :=
  match c with
  | CUpload _ (Err e) | CConvert _ (Err e) | CKvSet _ _ (Err e)
  | CFeedback _ _ (Err e) | CNavigate _ (Err e) => Some e
  | _ => None
  end.

(** The entries of a [FormData]: the named controls of the form with their
    values, in document order. *)
Abbreviation FormData := (list (JsString * JsVal)) (only parsing).

(** [formData.get(name)]: the first value of that name, or [null]. *)
Fixpoint formData_get (formData : FormData) (name : JsString) : JsVal :=
  match formData with
  | [] => VNull
  | (k, v) :: rest => if js_string_eqb k name then v else formData_get rest name
  end.

(** The submit event, as far as [handleSubmit] looks at it: what
    [e.currentTarget.closest('form')] finds, with the form's data. *)
Record SubmitEvent : Type := mkSubmitEvent {
  closest_form : option FormData
}.

(** What is rendered inside the page heading (lines 149-186). *)
Record View : Type := mkView {
  heading : JsString;
  scan_image_shown : bool;
  form_shown : bool
}.

Section Component.

Context {W : Type} `{Platform W}.

(** The state of the [upload] component: the selected file ([File | null])
    and the state the handler works on. *)
Record Component : Type := mkComponent {
  file : JsVal;
  ui : St W
}.

(** Lines 18-20 *)
Definition handleFileSelect (f : JsVal) (c : Component) : Component :=
  mkComponent f (ui c).

(** What a call of [handleSubmit] leaves behind: whether the default action
    of the event was prevented, and the component. *)
Record Submitted : Type := mkSubmitted {
  defaultPrevented : bool;
  component : Component
}.

(** Lines 128-142. [handleAnalyze] is typed on strings, and the three
    [formData.get(...) as string] assert that type: the call is modelled
    where the three values are strings, and [None] stands for a call with
    another value. The promise of [handleAnalyze] is not awaited; the
    component is taken at the point where that promise has settled. *)
Definition handleSubmit (e : SubmitEvent) (c : Component) : option Submitted :=
  match closest_form e with
  | None => Some (mkSubmitted true c)
  | Some formData =>
      let companyName := formData_get formData (lit "company-name") in
      let jobTitle := formData_get formData (lit "job-title") in
      let jobDescription := formData_get formData (lit "job-description") in
      if negb (truthy (file c)) then Some (mkSubmitted true c)
      else
        match companyName, jobTitle, jobDescription with
        | VStr companyName, VStr jobTitle, VStr jobDescription =>
            let (_, st) :=
              handleAnalyze companyName jobTitle jobDescription (file c) (ui c) in
            Some (mkSubmitted true (mkComponent (file c) st))
        | _, _, _ => None
        end
  end.

(** Lines 153-185: the status and the scan image while processing, the
    prompt and the form otherwise. *)
Definition render (c : Component) : View :=
  if isProcessing (ui c)
  then mkView (statusText (ui c)) true false
  else mkView (lit "Drop your resume for an ATS score and improvement tips")
              false true.

(** The component as it is mounted: no file, not processing, empty status. *)
Definition mounted (w : W) (store : gmap JsString JsString) : Component :=
  mkComponent VNull (start w store false []).

End Component.

(** ** More scripts *)

(** The first upload is rejected. *)
Definition offline_script : Script :=
  mkScript (fun _ => Err (ErrorInstance (lit "network down"))) demo_convert
           (fun _ _ => Ok (VBool true))
           (Ok (ai_message (VStr (fenced good_feedback))))
           (fun _ => Ok tt)
           (parse_known known_feedback).

(** The upload resolves with [null]. *)
Definition null_upload_script : Script :=
  mkScript (fun _ => Ok VNull) demo_convert
           (fun _ _ => Ok (VBool true))
           (Ok (ai_message (VStr (fenced good_feedback))))
           (fun _ => Ok tt)
           (parse_known known_feedback).

(** The AI answers with prose. *)
Definition prose_script : Script :=
  answering (Ok (ai_message (VStr (lit "Sorry, I cannot read this file."))))
            known_feedback.

(** The AI answers with the JSON text [null]. *)
Definition null_json_script : Script :=
  answering (Ok (ai_message (VStr (lit "null")))) [VNull].

(** The AI answers with an object that has no [message]. *)
Definition no_message_script : Script :=
  answering (Ok (VObj [(lit "error", VStr (lit "quota"))])) known_feedback.

(** The AI answers with an empty string. *)
Definition empty_content_script : Script :=
  answering (Ok (ai_message (VStr []))) known_feedback.

(** The AI answers with a text item whose [text] is a number. *)
Definition number_text_script : Script :=
  answering
    (Ok (ai_message (VArr [VObj [(lit "type", VStr (lit "text")); (lit "text", int 42)]])))
    known_feedback.

(** A text item with an empty [text] and a [content]. *)
Definition content_item : JsVal :=
  VObj [(lit "type", VStr (lit "text")); (lit "text", VStr []);
        (lit "content", VStr (lit "from content"))].

(** The data of the form of lines 162-184, filled in. *)
Definition acme_form : list (JsString * JsVal) :=
  [ (lit "company-name", VStr (lit "Acme"));
    (lit "job-title", VStr (lit "Engineer"));
    (lit "job-description", VStr (lit "Build things")) ].

(** ** Text extraction (lines 77-83) *)

Lemma typeof_string (v : JsVal) :
  js_string_eqb (typeof v) (lit "string") = match v with VStr _ => true | _ => false end.
Proof. destruct v; reflexivity. Qed.

Lemma get_prop_opt_defined (v r : JsVal) (k k' : JsString) :
  get_prop v k = Ok r -> get_prop_opt v k' = get_prop v k'.
Proof. destruct v; simpl; intros Hg; try reflexivity; discriminate Hg. Qed.

Lemma array_find_skip (pred : JsVal -> Outcome bool) (pre rest : list JsVal) :
  Forall (fun x => pred x = Ok false) pre ->
  array_find pred (pre ++ rest) = array_find pred rest.
Proof.
  induction 1 as [|x pre Hx _ IH]; simpl.
  - reflexivity.
  - rewrite Hx. exact IH.
Qed.

Lemma extract_of_content (feedback message content : JsVal) :
  get_prop feedback (lit "message") = Ok message ->
  get_prop message (lit "content") = Ok content ->
  extractFeedbackText feedback =
    if js_string_eqb (typeof content) (lit "string") then Ok content
    else match content with
         | VArr items =>
             obind (array_find is_text_item items) (fun textContent =>
             obind (get_prop_opt textContent (lit "text")) (fun t =>
             obind (get_prop_opt textContent (lit "content")) (fun c =>
             Ok (js_or (js_or t c) (VStr [])))))
         | _ => Ok (VStr [])
         end.
Proof.
  intros Hm Hc. unfold extractFeedbackText. rewrite Hm. simpl. rewrite Hc. simpl.
  destruct content; reflexivity.
Qed.

(** C8: when [feedback.message.content] is a string, the extracted text is
    that string. *)
Theorem extract_string_content (feedback message : JsVal) (s : JsString) :
  get_prop feedback (lit "message") = Ok message ->
  get_prop message (lit "content") = Ok (VStr s) ->
  extractFeedbackText feedback = Ok (VStr s).
Proof.
  intros Hm Hc. rewrite (extract_of_content _ _ _ Hm Hc).
  rewrite typeof_string. reflexivity.
Qed.

(** C3, as amended: when [feedback.message.content] is an array whose first
    item that is text-flagged or has a truthy [text] is a text-flagged item
    with a truthy [text], the extracted text is that item's [text]. *)
Theorem extract_text_flagged_item
    (feedback message item t : JsVal) (pre post : list JsVal) :
  get_prop feedback (lit "message") = Ok message ->
  get_prop message (lit "content") = Ok (VArr (pre ++ item :: post)) ->
  Forall (fun x => is_text_item x = Ok false) pre ->
  text_flagged item = true ->
  get_prop item (lit "text") = Ok t ->
  truthy t = true ->
  extractFeedbackText feedback = Ok t.
Proof.
  intros Hm Hc Hpre Hflag Ht Htruthy.
  rewrite (extract_of_content _ _ _ Hm Hc). rewrite typeof_string.
  rewrite (array_find_skip _ _ _ Hpre). simpl.
  unfold text_flagged in Hflag. unfold is_text_item.
  destruct (get_prop item (lit "type")) as [ty|e] eqn:Hty; [|discriminate Hflag].
  simpl. rewrite Hflag. simpl.
  rewrite (get_prop_opt_defined _ _ _ _ Hty), Ht. simpl.
  rewrite (get_prop_opt_defined _ _ _ _ Hty).
  destruct (get_prop item (lit "content")) as [c|e] eqn:Hcont.
  - simpl. unfold js_or. rewrite Htruthy. rewrite Htruthy. reflexivity.
  - destruct item; simpl in Hcont; try discriminate Hcont; simpl in Hty; discriminate Hty.
Qed.

(** Neither a string nor an array: the dispatch leaves [feedbackText] empty. *)
Lemma extract_other_content (feedback message content : JsVal) :
  get_prop feedback (lit "message") = Ok message ->
  get_prop message (lit "content") = Ok content ->
  typeof content <> lit "string" ->
  isArray content = false ->
  extractFeedbackText feedback = Ok (VStr []).
Proof.
  intros Hm Hc Hty Harr. rewrite (extract_of_content _ _ _ Hm Hc).
  rewrite typeof_string.
  destruct content; try reflexivity.
  - exfalso. apply Hty. reflexivity.
  - discriminate Harr.
Qed.

(** ** Fence stripping (line 92) *)

Section Fences.

Local Open Scope nat_scope.

Lemma fence_units : fence = [96; 96; 96]%N.
Proof. reflexivity. Qed.

Lemma fence_json_units : fence_json = (fence ++ lit "json")%list.
Proof. reflexivity. Qed.

Lemma replace_go_drop (p : JsString) (s : JsString) :
  forall k, replace_go p k s = replace_go p 0 (drop k s).
Proof.
  induction s as [|c s IH]; intros k.
  - destruct k; reflexivity.
  - destruct k as [|k]; [reflexivity|]. simpl. apply IH.
Qed.

(** The two equations of the scan. *)
Lemma replace_all_match (p : JsString) (c : N) (s : JsString) :
  starts_with p (c :: s) = true ->
  replace_all p (c :: s) = replace_all p (drop (pred (match_length p (c :: s))) s).
Proof.
  intros Hp. unfold replace_all. cbn [replace_go]. rewrite Hp.
  apply replace_go_drop.
Qed.

Lemma replace_all_keep (p : JsString) (c : N) (s : JsString) :
  starts_with p (c :: s) = false ->
  replace_all p (c :: s) = c :: replace_all p s.
Proof.
  intros Hp. unfold replace_all. cbn [replace_go]. rewrite Hp. reflexivity.
Qed.

Lemma starts_with_app (p rest : JsString) : starts_with p (p ++ rest)%list = true.
Proof.
  induction p as [|a p IH]; simpl; [reflexivity|].
  rewrite N.eqb_refl. exact IH.
Qed.

(** A marker is dropped together with the newline that follows it ... *)
Lemma replace_all_marker_newline (p rest : JsString) :
  p <> [] ->
  replace_all p (p ++ newline :: rest)%list = replace_all p rest.
Proof.
  destruct p as [|a p]; [contradiction|]. intros _.
  change ((a :: p) ++ newline :: rest)%list with (a :: (p ++ newline :: rest))%list.
  rewrite replace_all_match
    by exact (starts_with_app (a :: p) (newline :: rest)).
  unfold match_length.
  change (a :: (p ++ newline :: rest))%list with ((a :: p) ++ newline :: rest)%list.
  rewrite drop_app_length. rewrite N.eqb_refl.
  cbn [pred length].
  replace (p ++ newline :: rest)%list with ((p ++ [newline]) ++ rest)%list
    by (rewrite <- app_assoc; reflexivity).
  replace (S (length p)) with (length (p ++ [newline])%list)
    by (rewrite length_app; simpl; lia).
  rewrite drop_app_length. reflexivity.
Qed.

(** ... and alone when something else follows it. *)
Lemma replace_all_marker_other (p : JsString) (c : N) (rest : JsString) :
  p <> [] -> c <> newline ->
  replace_all p (p ++ c :: rest)%list = replace_all p (c :: rest).
Proof.
  destruct p as [|a p]; [contradiction|]. intros _ Hc.
  change ((a :: p) ++ c :: rest)%list with (a :: (p ++ c :: rest))%list.
  rewrite replace_all_match by exact (starts_with_app (a :: p) (c :: rest)).
  unfold match_length.
  change (a :: (p ++ c :: rest))%list with ((a :: p) ++ c :: rest)%list.
  rewrite drop_app_length.
  destruct (N.eqb c newline) eqn:E; [apply N.eqb_eq in E; contradiction|].
  cbn [pred length]. rewrite drop_app_length. reflexivity.
Qed.

Lemma starts_with_fence_units (s : JsString) :
  starts_with [96; 96; 96]%N s =
  match s with
  | a :: b :: c :: _ => N.eqb 96 a && (N.eqb 96 b && N.eqb 96 c)
  | _ => false
  end.
Proof.
  destruct s as [|a [|b [|c rest]]]; cbn [starts_with];
    rewrite ?andb_true_r, ?andb_false_r; reflexivity.
Qed.

(** What the scan outputs never starts with a fence when its input does
    not: at most two backticks are kept before a unit that is not one. *)
Lemma replace_fence_head (s : JsString) :
  starts_with fence s = false ->
  starts_with fence (replace_all fence s) = false.
Proof.
  intros Hs.
  destruct s as [|a s1]; [reflexivity|].
  rewrite (replace_all_keep _ _ _ Hs).
  destruct (N.eqb 96 a) eqn:Ha.
  2:{ rewrite fence_units, starts_with_fence_units.
      destruct (replace_all _ s1) as [|b [|c r]]; try reflexivity.
      rewrite Ha. reflexivity. }
  assert (Hs1 : starts_with fence s1 = false).
  { rewrite fence_units, starts_with_fence_units in *. rewrite Ha in Hs.
    destruct s1 as [|b [|c [|d s4]]]; try reflexivity.
    cbn [andb] in Hs.
    destruct (N.eqb 96 b), (N.eqb 96 c); try reflexivity; discriminate Hs. }
  destruct s1 as [|b s2].
  { rewrite fence_units, starts_with_fence_units. reflexivity. }
  rewrite (replace_all_keep _ _ _ Hs1).
  destruct (N.eqb 96 b) eqn:Hb.
  2:{ rewrite fence_units, starts_with_fence_units.
      destruct (replace_all _ s2) as [|c r]; try reflexivity.
      rewrite Hb, andb_false_r. reflexivity. }
  assert (Hs2 : starts_with fence s2 = false).
  { rewrite fence_units, starts_with_fence_units in *. rewrite Ha, Hb in Hs.
    destruct s2 as [|c [|d [|e s5]]]; try reflexivity.
    cbn [andb] in Hs. rewrite Hs. reflexivity. }
  destruct s2 as [|c s3].
  { rewrite fence_units, starts_with_fence_units. reflexivity. }
  rewrite (replace_all_keep _ _ _ Hs2).
  rewrite fence_units, starts_with_fence_units in *.
  rewrite Ha, Hb in *. cbn [andb] in *. exact Hs.
Qed.

Lemma drop_length_le {A} (k : nat) (s : list A) : length (drop k s) <= length s.
Proof. rewrite length_drop. lia. Qed.

(** After [replace(/```\n?/g, '')] no fence is left anywhere. *)
Lemma replace_fence_clean (s : JsString) :
  occursb fence (replace_all fence s) = false.
Proof.
  remember (length s) as n eqn:Hn.
  revert s Hn. induction n as [n IH] using lt_wf_ind. intros s Hn.
  destruct s as [|c s].
  - reflexivity.
  - destruct (starts_with fence (c :: s)) eqn:Hs.
    + rewrite (replace_all_match _ _ _ Hs).
      apply (IH (length (drop (pred (match_length fence (c :: s))) s))); [|reflexivity].
      subst n. simpl. pose proof (drop_length_le (pred (match_length fence (c :: s))) s). lia.
    + pose proof (replace_fence_head _ Hs) as Hh.
      rewrite (replace_all_keep _ _ _ Hs) in *.
      cbn [occursb]. rewrite Hh. simpl.
      apply (IH (length s)); [subst n; simpl; lia | reflexivity].
Qed.

Lemma occursb_head (p s : JsString) : starts_with p s = true -> occursb p s = true.
Proof. destruct s; cbn [occursb]; intros ->; reflexivity. Qed.

Lemma occursb_complete (p s : JsString) : occurs_in p s -> occursb p s = true.
Proof.
  intros (pre & post & ->).
  induction pre as [|a pre IH].
  - apply occursb_head. exact (starts_with_app p post).
  - cbn [app occursb]. rewrite IH. apply orb_true_r.
Qed.

Lemma occurs_in_longer (p q s : JsString) :
  occurs_in (p ++ q)%list s -> occurs_in p s.
Proof.
  intros (pre & post & ->). exists pre, (q ++ post)%list.
  rewrite <- !app_assoc. reflexivity.
Qed.

Lemma trim_start_suffix (s : JsString) : exists pre, s = (pre ++ trim_start s)%list.
Proof.
  induction s as [|c s [pre IH]]; simpl.
  - exists []. reflexivity.
  - destruct (is_white_space c).
    + exists (c :: pre). simpl. rewrite <- IH. reflexivity.
    + exists []. reflexivity.
Qed.

Lemma trim_end_prefix (s : JsString) : exists post, s = (trim_end s ++ post)%list.
Proof.
  unfold trim_end. destruct (trim_start_suffix (rev s)) as [pre Hpre].
  exists (rev pre).
  rewrite <- rev_app_distr, <- Hpre, rev_involutive. reflexivity.
Qed.

Lemma occurs_in_trim (p s : JsString) : occurs_in p (trim s) -> occurs_in p s.
Proof.
  unfold trim. intros (a & b & Hab).
  destruct (trim_start_suffix s) as [pre Hpre].
  destruct (trim_end_prefix (trim_start s)) as [post Hpost].
  exists (pre ++ a)%list, (b ++ post)%list.
  rewrite Hpre at 1. rewrite Hpost at 1. rewrite Hab.
  rewrite <- !app_assoc. reflexivity.
Qed.

(** The text handed to [JSON.parse] holds no code-fence marker. *)
Lemma cleanFeedbackText_no_fence (feedbackText : JsString) :
  ~ occurs_in fence (cleanFeedbackText feedbackText) /\
  ~ occurs_in fence_json (cleanFeedbackText feedbackText).
Proof.
  assert (Hf : ~ occurs_in fence (cleanFeedbackText feedbackText)).
  { intros Hocc. apply occurs_in_trim, occursb_complete in Hocc.
    rewrite replace_fence_clean in Hocc. discriminate Hocc. }
  split; [exact Hf|].
  intros Hocc. apply Hf. rewrite fence_json_units in Hocc.
  exact (occurs_in_longer _ _ _ Hocc).
Qed.

End Fences.

(** ** Walking through the handler *)

Section Rules.

Context {W : Type} `{Platform W}.

Local Abbreviation St := (St W).

Lemma wp_bind {A B} (c : M A) (k : A -> M B) (Q : Completion B -> St -> Prop) st :
  wp c (fun r st' =>
          match r with
          | Normal a => wp (k a) Q st'
          | Return v => Q (Return v) st'
          | Throw e => Q (Throw e) st'
          end) st ->
  wp (bind c k) Q st.
Proof.
  unfold wp, bind. destruct (c st) as [[a|v|e] st']; intros Hq; exact Hq.
Qed.

Lemma wp_try_catch {A} (body : M A) (handler : Exn -> M A)
    (Q : Completion A -> St -> Prop) st :
  wp body (fun r st' =>
             match r with
             | Throw e => wp (handler e) Q st'
             | _ => Q r st'
             end) st ->
  wp (try_catch body handler) Q st.
Proof.
  unfold wp, try_catch. destruct (body st) as [[a|v|e] st']; intros Hq; exact Hq.
Qed.

Lemma wp_return_with {A} (c : M JsVal) (Q : Completion A -> St -> Prop) st :
  wp c (fun r st' =>
          match r with
          | Normal v | Return v => Q (Return v) st'
          | Throw e => Q (Throw e) st'
          end) st ->
  wp (return_with c) Q st.
Proof.
  unfold wp, return_with. destruct (c st) as [[a|v|e] st']; intros Hq; exact Hq.
Qed.

Lemma wp_ret {A} (a : A) (Q : Completion A -> St -> Prop) st :
  Q (Normal a) st -> wp (ret a) Q st.
Proof. intros Hq. exact Hq. Qed.

Lemma wp_eval {A} (o : Outcome A) (Q : Completion A -> St -> Prop) st :
  match o with
  | Ok a => Q (Normal a) st
  | Err e => Q (Throw e) st
  end ->
  wp (eval o) Q st.
Proof. unfold wp, eval. destruct o; intros Hq; exact Hq. Qed.

Lemma wp_setIsProcessing (b : bool) (Q : Completion JsVal -> St -> Prop) st :
  Q (Normal VUndefined)
    (mkSt (world st) b (statusText st) (kv st) (calls st) (parser_inputs st)) ->
  wp (setIsProcessing b) Q st.
Proof. intros Hq. exact Hq. Qed.

Lemma wp_setStatusText (s : JsString) (Q : Completion JsVal -> St -> Prop) st :
  Q (Normal VUndefined)
    (mkSt (world st) (isProcessing st) s (kv st) (calls st) (parser_inputs st)) ->
  wp (setStatusText s) Q st.
Proof. intros Hq. exact Hq. Qed.

Lemma wp_await {A} (call : W -> Outcome A * W) (entry : Outcome A -> Call)
    (Q : Completion A -> St -> Prop) st :
  (forall r w', call (world st) = (r, w') ->
     let st' := mkSt w' (isProcessing st) (statusText st) (kv st)
                     (calls st ++ [entry r]) (parser_inputs st) in
     match r with
     | Ok a => Q (Normal a) st'
     | Err e => Q (Throw e) st'
     end) ->
  wp (await call entry) Q st.
Proof.
  unfold wp, await, eval. destruct (call (world st)) as [r w'] eqn:Hcall.
  intros Hq. specialize (Hq r w' eq_refl). destruct r; exact Hq.
Qed.

Lemma wp_generateUUID (Q : Completion JsString -> St -> Prop) st :
  (forall r w', generateUUID (world st) = (r, w') ->
     let st' := mkSt w' (isProcessing st) (statusText st) (kv st)
                     (calls st) (parser_inputs st) in
     match r with
     | Ok a => Q (Normal a) st'
     | Err e => Q (Throw e) st'
     end) ->
  wp call_generateUUID Q st.
Proof.
  unfold wp, call_generateUUID, eval.
  destruct (generateUUID (world st)) as [r w'] eqn:Hcall.
  intros Hq. specialize (Hq r w' eq_refl). destruct r; exact Hq.
Qed.

Lemma wp_kv_set (key value : JsString) (Q : Completion JsVal -> St -> Prop) st :
  (forall r w', kv_set key value (world st) = (r, w') ->
     match r with
     | Ok a =>
         Q (Normal a)
           (mkSt w' (isProcessing st) (statusText st) (<[key := value]> (kv st))
                 (calls st ++ [CKvSet key value r]) (parser_inputs st))
     | Err e =>
         Q (Throw e)
           (mkSt w' (isProcessing st) (statusText st) (kv st)
                 (calls st ++ [CKvSet key value r]) (parser_inputs st))
     end) ->
  wp (await_kv_set key value) Q st.
Proof.
  unfold wp, await_kv_set, eval.
  destruct (kv_set key value (world st)) as [r w'] eqn:Hcall.
  intros Hq. specialize (Hq r w' eq_refl). destruct r; exact Hq.
Qed.

Lemma wp_JSON_parse (text : JsString) (Q : Completion JsVal -> St -> Prop) st :
  (let st' := mkSt (world st) (isProcessing st) (statusText st) (kv st)
                   (calls st) (parser_inputs st ++ [text]) in
   match JSON_parse text with
   | Ok a => Q (Normal a) st'
   | Err e => Q (Throw e) st'
   end) ->
  wp (call_JSON_parse text) Q st.
Proof.
  unfold wp, call_JSON_parse, eval. destruct (JSON_parse text); intros Hq; exact Hq.
Qed.

(** From the body to the call. *)
Lemma handleAnalyze_wp (companyName jobTitle jobDescription : JsString) (file : JsVal)
    (Q : Outcome JsVal -> St -> Prop) st :
  wp (handleAnalyze_body companyName jobTitle jobDescription file)
     (fun c st' => Q (settle c) st') st ->
  let (r, st') := handleAnalyze companyName jobTitle jobDescription file st in
  Q r st'.
Proof.
  unfold wp, handleAnalyze.
  destruct (handleAnalyze_body _ _ _ _ st) as [[a|v|e] st']; intros Hq; exact Hq.
Qed.

End Rules.

Ltac wp_simpl :=
  cbn beta iota zeta delta
      [world isProcessing statusText kv calls parser_inputs settle start app].

(** One statement of the handler. *)
Ltac wp_step :=
  lazymatch goal with
  | |- wp (bind _ _) _ _ => apply wp_bind
  | |- wp (try_catch _ _) _ _ => apply wp_try_catch
  | |- wp (return_with _) _ _ => apply wp_return_with
  | |- wp (when ?b _) _ _ => unfold when
  | |- wp (if negb ?b then _ else _) _ _ => destruct b eqn:?; cbn [negb]
  | |- wp (if ?b then _ else _) _ _ => destruct b eqn:?
  | |- wp (ret _) _ _ => apply wp_ret
  | |- wp (eval ?o) _ _ =>
      apply wp_eval;
      lazymatch o with
      | Ok _ => idtac
      | Err _ => idtac
      | _ => destruct o eqn:?
      end
  | |- wp (setIsProcessing _) _ _ => apply wp_setIsProcessing
  | |- wp (setStatusText _) _ _ => apply wp_setStatusText
  | |- wp console_log _ _ => apply wp_ret
  | |- wp console_error _ _ => apply wp_ret
  | |- wp (await_fs_upload _) _ _ =>
      apply wp_await; wp_simpl; intros [?uploaded|?e] ?w ?Hupload
  | |- wp (await_convertPdfToImage _) _ _ =>
      apply wp_await; wp_simpl; intros [?converted|?e] ?w ?Hconvert
  | |- wp (await_ai_feedback _ _) _ _ =>
      apply wp_await; wp_simpl; intros [?feedback|?e] ?w ?Hfeedback
  | |- wp (call_navigate _) _ _ =>
      apply wp_await; wp_simpl; intros [[]|?e] ?w ?Hnavigate
  | |- wp call_generateUUID _ _ =>
      apply wp_generateUUID; wp_simpl; intros [?uuid|?e] ?w ?Huuid
  | |- wp (await_kv_set _ _) _ _ =>
      apply wp_kv_set; wp_simpl; intros [?stored|?e] ?w ?Hkv
  | |- wp (call_JSON_parse ?t) _ _ =>
      apply wp_JSON_parse; destruct (JSON_parse t) eqn:?
  end; wp_simpl.

Ltac wp_run := repeat wp_step.

(** Membership in a log that is known entry by entry. *)
Ltac in_log Hin :=
  simpl in Hin;
  repeat (destruct Hin as [Hin|Hin]; [try discriminate Hin|]);
  try contradiction.

Section Runs.

Context {W : Type} `{Platform W}.

Local Abbreviation St := (St W).

Lemma handleAnalyze_run (companyName jobTitle jobDescription : JsString) (file : JsVal)
    (Q : Outcome JsVal -> St -> Prop) st0 :
  wp (handleAnalyze_body companyName jobTitle jobDescription file)
     (fun c st' => Q (settle c) st') st0 ->
  forall r st,
    handleAnalyze companyName jobTitle jobDescription file st0 = (r, st) -> Q r st.
Proof.
  intros Hwp r st Hrun. apply handleAnalyze_wp in Hwp. rewrite Hrun in Hwp. exact Hwp.
Qed.

Lemma handleAnalyze_total (companyName jobTitle jobDescription : JsString) (file : JsVal)
    (Q : Outcome JsVal -> St -> Prop) st0 :
  wp (handleAnalyze_body companyName jobTitle jobDescription file)
     (fun c st' => Q (settle c) st') st0 ->
  exists r st,
    handleAnalyze companyName jobTitle jobDescription file st0 = (r, st) /\ Q r st.
Proof.
  intros Hwp. apply handleAnalyze_wp in Hwp.
  destruct (handleAnalyze _ _ _ _ st0) as [r st]. exists r, st. split; [reflexivity|exact Hwp].
Qed.

Lemma lit_nonempty_status (s : JsString) : failure_status s -> s <> [].
Proof.
  intros Hs E. subst s. unfold failure_status in Hs.
  repeat (destruct Hs as [Hs|Hs]; [discriminate Hs|]).
  destruct Hs as [err Hs]. destruct err; discriminate Hs.
Qed.

(** C10: when the AI response is truthy and its [message.content] is neither
    a string nor an array, the extracted text is empty, and the run stops
    with the invalid-response status and the flag off, without throwing and
    without calling the parser. *)
Theorem other_content_reported_invalid
    (companyName jobTitle jobDescription : JsString) (file : JsVal)
    (w : W) (store : gmap JsString JsString) (processing : bool) (status : JsString)
    (r : Outcome JsVal) (st : St) :
  handleAnalyze companyName jobTitle jobDescription file
                (start w store processing status) = (r, st) ->
  forall path instructions feedback message content,
    In (CFeedback path instructions (Ok feedback)) (calls st) ->
    truthy feedback = true ->
    get_prop feedback (lit "message") = Ok message ->
    get_prop message (lit "content") = Ok content ->
    typeof content <> lit "string" ->
    isArray content = false ->
    extractFeedbackText feedback = Ok (VStr []) /\
    r = Ok VUndefined /\
    isProcessing st = false /\
    statusText st = lit "Invalid AI response format. Please try again." /\
    parser_inputs st = [].
Proof.
  intros Hrun. pattern r, st. revert r st Hrun.
  apply handleAnalyze_run. unfold handleAnalyze_body.
  wp_run.
  all: intros path instructions fb message content Hin Htruthy Hm Hc Hty Harr.
  all: in_log Hin.
  all: injection Hin as -> -> ->.
  all: pose proof (extract_other_content _ _ _ Hm Hc Hty Harr) as Hx.
  all: try congruence.
  all: match goal with
       | Hext : extractFeedbackText ?f = Ok ?a |- extractFeedbackText ?f = _ /\ _ =>
           assert (a = VStr []) by congruence; subst a
       end.
  all: try discriminate.
  all: split; [exact Hx|repeat split; reflexivity].
Qed.

Lemma clean_value_ok (v : JsVal) (t : JsString) :
  clean_value v = Ok t -> exists s, v = VStr s /\ t = cleanFeedbackText s.
Proof.
  destruct v; unfold clean_value; intros Hc; try discriminate Hc.
  injection Hc as <-. eexists. split; reflexivity.
Qed.


Lemma lookup_record_feedback (uuid : JsString) (rp ip : JsVal)
    (cn jt jd : JsString) (fb : JsVal) :
  lookup_prop (lit "feedback") (resume_record uuid rp ip cn jt jd fb) = fb.
Proof. reflexivity. Qed.

Lemma lookup_record_id (uuid : JsString) (rp ip : JsVal)
    (cn jt jd : JsString) (fb : JsVal) :
  lookup_prop (lit "id") (resume_record uuid rp ip cn jt jd fb) = VStr uuid.
Proof. reflexivity. Qed.

(** [data.feedback = parsedFeedback] replaces the pending feedback. *)
Lemma assign_record_feedback (uuid : JsString) (rp ip : JsVal)
    (cn jt jd : JsString) (fb parsed : JsVal) :
  assign_prop (lit "feedback") parsed (resume_record uuid rp ip cn jt jd fb)
  = resume_record uuid rp ip cn jt jd parsed.
Proof. reflexivity. Qed.

Lemma truthy_prop_object (v x : JsVal) (k : JsString) :
  get_prop v k = Ok x -> truthy x = true ->
  exists props, v = VObj props /\ lookup_prop k props = x /\ x <> VUndefined.
Proof.
  intros Hg Ht.
  destruct v; unfold get_prop in Hg; try discriminate Hg;
    injection Hg as <-; try discriminate Ht.
  exists props. split; [reflexivity|]. split; [reflexivity|].
  intros E. rewrite E in Ht. discriminate Ht.
Qed.

(** C6: every value handed to [kv.set] is the serialization of a record
    under [resume:<id>] whose [feedback] is the empty string or an object
    that has both [overallScore] and [ATS]. *)
Theorem written_records_keep_feedback_invariant
    (companyName jobTitle jobDescription : JsString) (file : JsVal)
    (w : W) (store : gmap JsString JsString) (processing : bool) (status : JsString)
    (r : Outcome JsVal) (st : St) :
  handleAnalyze companyName jobTitle jobDescription file
                (start w store processing status) = (r, st) ->
  forall key value result, In (CKvSet key value result) (calls st) ->
    exists uuid props,
      key = lit "resume:" ++ uuid /\
      value = JSON_stringify (VObj props) /\
      lookup_prop (lit "id") props = VStr uuid /\
      feedback_ok (lookup_prop (lit "feedback") props).
Proof.
  intros Hrun. pattern r, st. revert r st Hrun.
  apply handleAnalyze_run. unfold handleAnalyze_body.
  wp_run.
  all: intros key value result Hin; in_log Hin.
  all: injection Hin as <- <- <-.
  all: do 2 eexists; split; [reflexivity|]; split; [reflexivity|].
  all: rewrite ?assign_record_feedback, lookup_record_id, lookup_record_feedback.
  all: split; [reflexivity|].
  all: try (left; reflexivity).
  all: right.
  all: match goal with
       | Hs : get_prop ?p (lit "overallScore") = Ok ?x, Ht : truthy ?x = true,
         Ha : get_prop ?p (lit "ATS") = Ok ?y, Hu : truthy ?y = true |- _ =>
           destruct (truthy_prop_object _ _ _ Hs Ht) as (props & -> & Hl1 & Hn1);
           destruct (truthy_prop_object _ _ _ Ha Hu) as (props' & Heq & Hl2 & Hn2);
           injection Heq as <-;
           exists props; split; [reflexivity|]; split; congruence
       end.
Qed.

Ltac use_checks :=
  repeat match goal with
         | Hc : truthy _ = true |- _ => rewrite Hc
         | Hc : get_prop _ (lit "file") = Ok _ |- _ => rewrite Hc
         end.

(** C5: the external calls of a run are an initial segment of upload,
    conversion, upload, write, AI call, write, navigation; a call is followed
    by another one only if it succeeded; the second write is made only after
    a parse whose result passed the validation; and a run that ends with the
    navigation made exactly these seven calls, both writes under
    [resume:<id>] and the navigation to [/resume/<id>] for the one
    generated identifier. *)
Theorem external_calls_in_pipeline_order
    (companyName jobTitle jobDescription : JsString) (file : JsVal)
    (w : W) (store : gmap JsString JsString) (processing : bool) (status : JsString)
    (r : Outcome JsVal) (st : St) :
  handleAnalyze companyName jobTitle jobDescription file
                (start w store processing status) = (r, st) ->
  map call_kind (calls st) `prefix_of` pipeline_order /\
  gated (calls st) = true /\
  ((6 <= length (calls st))%nat ->
     exists text parsed,
       parser_inputs st = [text] /\ JSON_parse text = Ok parsed /\
       truthy_prop parsed (lit "overallScore") /\ truthy_prop parsed (lit "ATS")) /\
  (navigated st ->
     exists uuid up1 conv image up2 v1 r1 path instructions fb v2 r2,
       calls st =
         [ CUpload [file] (Ok up1);
           CConvert file (Ok conv);
           CUpload [image] (Ok up2);
           CKvSet (lit "resume:" ++ uuid) v1 (Ok r1);
           CFeedback path instructions (Ok fb);
           CKvSet (lit "resume:" ++ uuid) v2 (Ok r2);
           CNavigate (lit "/resume/" ++ uuid) (Ok tt) ] /\
       length (kv_writes (calls st)) = 2%nat /\
       length (List.filter is_upload (calls st)) = 2%nat /\
       length (List.filter is_navigate (calls st)) = 1%nat).
Proof.
  intros Hrun. pattern r, st. revert r st Hrun.
  apply handleAnalyze_run. unfold handleAnalyze_body.
  wp_run.
  all: split; [eexists; reflexivity|].
  all: split; [cbn [gated call_succeeded]; use_checks; reflexivity|].
  all: split.
  all: try (intros Hlen; simpl in Hlen; lia).
  all: try (intros [to Hlast]; simpl in Hlast; discriminate Hlast).
  all: lazymatch goal with
       | |- navigated _ -> _ =>
           intros _; do 12 eexists; split; [reflexivity|]; repeat split
       | |- _ =>
           intros _; do 2 eexists; split; [reflexivity|]; split; [eassumption|];
           split; eexists; split; eassumption
       end.
Qed.

(** Two readings of the same property of the same value agree. *)
Ltac same_props :=
  repeat match goal with
         | H1 : get_prop ?v ?k = _, H2 : get_prop ?v ?k = _ |- _ =>
             rewrite H1 in H2; first [discriminate H2 | injection H2 as ?; subst]
         end.

Lemma get_prop_nullish (v x : JsVal) (k k' : JsString) (e : Exn) :
  get_prop v k = Err e -> get_prop v k' = Ok x -> False.
Proof. destruct v; unfold get_prop; intros He Hx; discriminate. Qed.

(** The check of line 107 where presence and truthiness agree: once the
    text is parsed, a value on which [overallScore] or [ATS] is absent is
    rejected (invalid-format status, flag off, one write only, no
    navigation); a value on which both are truthy is attached to the
    record, the record is written a second time, and unless that write
    throws the handler navigates. *)
Theorem validation_gate
    (companyName jobTitle jobDescription : JsString) (file : JsVal)
    (w : W) (store : gmap JsString JsString) (processing : bool) (status : JsString)
    (r : Outcome JsVal) (st : St) :
  handleAnalyze companyName jobTitle jobDescription file
                (start w store processing status) = (r, st) ->
  forall text parsed,
    parser_inputs st = [text] ->
    JSON_parse text = Ok parsed ->
    ((absent parsed (lit "overallScore") \/ absent parsed (lit "ATS")) ->
       r = Ok VUndefined /\
       statusText st = lit "Invalid feedback format from AI. Please try again." /\
       isProcessing st = false /\
       length (kv_writes (calls st)) = 1%nat /\
       List.filter is_navigate (calls st) = []) /\
    (truthy_prop parsed (lit "overallScore") ->
     truthy_prop parsed (lit "ATS") ->
       exists uuid resumePath imagePath earlier result later,
         calls st =
           earlier ++
           CKvSet (lit "resume:" ++ uuid)
                  (JSON_stringify
                     (VObj (resume_record uuid resumePath imagePath
                              companyName jobTitle jobDescription parsed)))
                  result :: later /\
         length earlier = 5%nat /\
         match result with
         | Ok _ => exists outcome, later = [CNavigate (lit "/resume/" ++ uuid) outcome]
         | Err _ => later = []
         end).
Proof.
  intros Hrun. pattern r, st. revert r st Hrun.
  apply handleAnalyze_run. unfold handleAnalyze_body.
  wp_run.
  all: intros text parsed Hin Hparse; try discriminate Hin.
  all: injection Hin as ->.
  all: match goal with
       | Hp : JSON_parse ?t = _ |- _ =>
           rewrite Hp in Hparse; first [discriminate Hparse | injection Hparse as ->]
       end.
  all: split.
  all: unfold absent, truthy_prop.
  all: try (intros [Ha|Ha]; same_props; cbn [truthy] in *; try congruence;
            try (exfalso; eauto using get_prop_nullish; fail);
            repeat split; reflexivity).
  all: try (intros (x & Hx & Htx) (y & Hy & Hty); same_props; congruence).
  all: intros _ _; rewrite assign_record_feedback.
  all: do 3 eexists; eexists [_; _; _; _; _]; do 2 eexists.
  all: split; [reflexivity|]; split; [reflexivity|].
  all: try (eexists; reflexivity).
  all: reflexivity.
Qed.

(** What is known of a call and what the run observed of it agree. *)
Ltac agree :=
  repeat match goal with
         | H1 : ?c = _, H2 : ?c = _ |- _ =>
             rewrite H1 in H2; first [discriminate H2 | simplify_eq]
         end.

(** The run in which every collaborator answers and every check passes. *)
Lemma complete_run
    (companyName jobTitle jobDescription : JsString) (file : JsVal)
    (w w1 w2 w3 w4 w5 w6 w7 w8 : W)
    (store : gmap JsString JsString) (processing : bool) (status : JsString)
    (uploadedFile ImageFile image uploadedImage resumePath imagePath : JsVal)
    (uuid : JsString) (stored1 instructions feedback parsed stored2 : JsVal)
    (text : JsString) :
  fs_upload [file] w = (Ok uploadedFile, w1) ->
  truthy uploadedFile = true ->
  get_prop uploadedFile (lit "path") = Ok resumePath ->
  convertPdfToImage file w1 = (Ok ImageFile, w2) ->
  get_prop ImageFile (lit "file") = Ok image ->
  truthy image = true ->
  fs_upload [image] w2 = (Ok uploadedImage, w3) ->
  truthy uploadedImage = true ->
  get_prop uploadedImage (lit "path") = Ok imagePath ->
  generateUUID w3 = (Ok uuid, w4) ->
  kv_set (lit "resume:" ++ uuid)
         (JSON_stringify
            (VObj (resume_record uuid resumePath imagePath
                     companyName jobTitle jobDescription (VStr []))))
         w4 = (Ok stored1, w5) ->
  prepareInstructions jobTitle jobDescription = Ok instructions ->
  ai_feedback resumePath instructions w5 = (Ok feedback, w6) ->
  truthy feedback = true ->
  extractFeedbackText feedback = Ok (VStr text) ->
  text <> [] ->
  JSON_parse (cleanFeedbackText text) = Ok parsed ->
  truthy_prop parsed (lit "overallScore") ->
  truthy_prop parsed (lit "ATS") ->
  kv_set (lit "resume:" ++ uuid)
         (JSON_stringify
            (VObj (resume_record uuid resumePath imagePath
                     companyName jobTitle jobDescription parsed)))
         w6 = (Ok stored2, w7) ->
  navigate (lit "/resume/" ++ uuid) w7 = (Ok tt, w8) ->
  exists st,
    handleAnalyze companyName jobTitle jobDescription file
                  (start w store processing status) = (Ok VUndefined, st) /\
    last (calls st) = Some (CNavigate (lit "/resume/" ++ uuid) (Ok tt)) /\
    map call_kind (calls st) = pipeline_order /\
    statusText st = lit "Analysis Complete! Redirecting..." /\
    kv st !! (lit "resume:" ++ uuid) =
      Some (JSON_stringify
              (VObj (resume_record uuid resumePath imagePath
                       companyName jobTitle jobDescription parsed))).
Proof.
  intros Hup1 Htup1 Hpath1 Hconv Hfile Htimg Hup2 Htup2 Hpath2 Hid Hkv1 Hinstr
         Hai Htfb Hext Hne Hparse (x & Hx & Htx) (y & Hy & Hty) Hkv2 Hnav.
  assert (Htext : truthy (VStr text) = true) by (destruct text; [contradiction|reflexivity]).
  cut (exists r st,
         handleAnalyze companyName jobTitle jobDescription file
                       (start w store processing status) = (r, st) /\
         (r = Ok VUndefined /\
          last (calls st) = Some (CNavigate (lit "/resume/" ++ uuid) (Ok tt)) /\
          map call_kind (calls st) = pipeline_order /\
          statusText st = lit "Analysis Complete! Redirecting..." /\
          kv st !! (lit "resume:" ++ uuid) =
            Some (JSON_stringify
                    (VObj (resume_record uuid resumePath imagePath
                             companyName jobTitle jobDescription parsed))))).
  { intros (r & st & Hrun & -> & Hrest). exists st. split; [exact Hrun|exact Hrest]. }
  apply handleAnalyze_total. unfold handleAnalyze_body.
  repeat (wp_step; agree; rewrite ?assign_record_feedback;
          try (unfold clean_value in *; simplify_eq)).
  split; [reflexivity|]. split; [reflexivity|]. split; [reflexivity|].
  split; [reflexivity|]. apply lookup_insert_eq.
Qed.

(** *** Failed steps *)

(** In a run that got as far as the given exit, a failure of one of the
    steps it passed contradicts what the run observed. *)
Ltac passed_steps Hfail :=
  repeat match type of Hfail with
         | _ \/ _ => destruct Hfail as [Hfail|Hfail]
         end;
  lazymatch type of Hfail with
  | call_failed _ =>
      let c := fresh "c" in let Hin := fresh "Hin" in let Hs := fresh "Hs" in
      destruct Hfail as (c & Hin & Hs); in_log Hin; subst c;
      revert Hs; cbn [call_succeeded]; use_checks; discriminate
  | feedback_call_failed _ =>
      let Hin := fresh "Hin" in let Hs := fresh "Hs" in
      destruct Hfail as (? & ? & ? & Hin & Hs); in_log Hin;
      injection Hin as <- <- <-;
      revert Hs; cbn [call_succeeded]; use_checks; discriminate
  | extraction_failed _ =>
      let Hin := fresh "Hin" in let Hno := fresh "Hno" in
      destruct Hfail as (? & ? & ? & Hin & _ & Hno); in_log Hin;
      injection Hin as <- <- <-;
      apply Hno;
      match goal with
      | Hc : clean_value ?t = Ok _, Ht : truthy ?t = true |- _ =>
          apply clean_value_ok in Hc as (? & -> & _);
          eexists; split; [eassumption|];
          intros ->; discriminate Ht
      end
  | parse_failed _ =>
      let Hin := fresh "Hin" in let Hp := fresh "Hp" in
      destruct Hfail as (? & ? & Hin & Hp); in_log Hin; subst; congruence
  | validation_failed _ =>
      let Hin := fresh "Hin" in let Hp := fresh "Hp" in let Hno := fresh "Hno" in
      destruct Hfail as (? & ? & Hin & Hp & Hno); in_log Hin; subst;
      match goal with
      | Hq : JSON_parse ?t = Ok _ |- _ =>
          rewrite Hq in Hp; injection Hp as <-
      end;
      apply Hno; split; eexists; split; eassumption
  | ~ navigated _ => apply Hfail; eexists; reflexivity
  end.

(** C1: whatever the collaborators do, the call returns normally
    ([undefined], nothing is rethrown). If a step failed (a call that was
    rejected, threw or gave a result that does not pass its check; no text
    extracted; a parse error; a failed validation), or for any other reason
    the run did not end with the navigation, then the processing flag is
    off and the status is one of the failure messages, none of which is
    empty. *)
Theorem handleAnalyze_failure_semantics
    (companyName jobTitle jobDescription : JsString) (file : JsVal)
    (w : W) (store : gmap JsString JsString) (processing : bool) (status : JsString) :
  exists st,
    handleAnalyze companyName jobTitle jobDescription file
                  (start w store processing status) = (Ok VUndefined, st) /\
    (step_failed st \/ ~ navigated st ->
       isProcessing st = false /\ statusText st <> [] /\
       failure_status (statusText st)) /\
    (navigated st \/
     (isProcessing st = false /\ statusText st <> [] /\ failure_status (statusText st))).
Proof.
  cut (exists r st,
         handleAnalyze companyName jobTitle jobDescription file
                       (start w store processing status) = (r, st) /\
         (r = Ok VUndefined /\
          (step_failed st \/ ~ navigated st ->
             isProcessing st = false /\ failure_status (statusText st)) /\
          (navigated st \/
           (isProcessing st = false /\ failure_status (statusText st))))).
  { intros (r & st & Hrun & -> & Hfailed & Hends). exists st.
    split; [exact Hrun|]. split.
    - intros Hfail. destruct (Hfailed Hfail) as [Hflag Hstatus].
      split; [exact Hflag|]. split; [|exact Hstatus].
      apply lit_nonempty_status, Hstatus.
    - destruct Hends as [Hnav|[Hflag Hstatus]]; [left; exact Hnav|].
      right. split; [exact Hflag|]. split; [|exact Hstatus].
      apply lit_nonempty_status, Hstatus. }
  apply handleAnalyze_total. unfold handleAnalyze_body.
  wp_run.
  all: split; [reflexivity|].
  all: try (split; [intros _|right]; (split; [reflexivity|]);
            unfold failure_status; eauto 12; fail).
  split; [|left; eexists; reflexivity].
  intros Hfail. exfalso. unfold step_failed in Hfail. passed_steps Hfail.
Qed.

(** C9: when the first write has resolved and a later step fails (the AI
    call, the extraction of the text, the parsing or the validation), that
    write is the only [kv.set] call of the run, and the store at the end is
    the initial store with the pending record (empty [feedback]) bound to
    [resume:<id>]: nothing has removed or replaced that entry. *)
Theorem pending_record_survives_failure
    (companyName jobTitle jobDescription : JsString) (file : JsVal)
    (w : W) (store : gmap JsString JsString) (processing : bool) (status : JsString)
    (r : Outcome JsVal) (st : St) :
  handleAnalyze companyName jobTitle jobDescription file
                (start w store processing status) = (r, st) ->
  forall key value result,
    In (CKvSet key value (Ok result)) (calls st) ->
    later_step_failed st ->
    kv_writes (calls st) = [CKvSet key value (Ok result)] /\
    kv st = <[key := value]> store /\
    kv st !! key = Some value /\
    exists uuid resumePath imagePath,
      key = lit "resume:" ++ uuid /\
      value = JSON_stringify
                (VObj (resume_record uuid resumePath imagePath
                         companyName jobTitle jobDescription (VStr []))).
Proof.
  intros Hrun. pattern r, st. revert r st Hrun.
  apply handleAnalyze_run. unfold handleAnalyze_body.
  wp_run.
  all: intros key value result Hwrite Hfail.
  all: try (in_log Hwrite; fail).
  all: try (in_log Hwrite; injection Hwrite as <- <- <-;
            split; [reflexivity|]; split; [reflexivity|];
            split; [apply lookup_insert_eq|];
            do 3 eexists; split; reflexivity).
  all: exfalso; clear Hwrite; unfold later_step_failed in Hfail; passed_steps Hfail.
Qed.

End Runs.

(** ** The end-to-end scenario *)

Section EndToEnd.

Context {W : Type} `{Platform W}.

(** The scenario of the specification where the check of line 107 passes:
    for company "Acme", title "Engineer" and description "Build things",
    when both uploads, the conversion, both writes and the navigation
    succeed and the text of the AI response parses to a value on which
    [overallScore] and [ATS] are truthy, the call returns after the
    navigation to [/resume/<id>] for the generated identifier, having made
    the seven calls of the pipeline. *)
Theorem acme_pipeline_navigates
    (file : JsVal) (w w1 w2 w3 w4 w5 w6 w7 w8 : W)
    (store : gmap JsString JsString) (processing : bool) (status : JsString)
    (uploadedFile ImageFile image uploadedImage resumePath imagePath : JsVal)
    (uuid : JsString) (stored1 instructions feedback parsed stored2 : JsVal)
    (text : JsString) :
  fs_upload [file] w = (Ok uploadedFile, w1) ->
  truthy uploadedFile = true ->
  get_prop uploadedFile (lit "path") = Ok resumePath ->
  convertPdfToImage file w1 = (Ok ImageFile, w2) ->
  get_prop ImageFile (lit "file") = Ok image ->
  truthy image = true ->
  fs_upload [image] w2 = (Ok uploadedImage, w3) ->
  truthy uploadedImage = true ->
  get_prop uploadedImage (lit "path") = Ok imagePath ->
  generateUUID w3 = (Ok uuid, w4) ->
  kv_set (lit "resume:" ++ uuid)
         (JSON_stringify
            (VObj (resume_record uuid resumePath imagePath
                     (lit "Acme") (lit "Engineer") (lit "Build things") (VStr []))))
         w4 = (Ok stored1, w5) ->
  prepareInstructions (lit "Engineer") (lit "Build things") = Ok instructions ->
  ai_feedback resumePath instructions w5 = (Ok feedback, w6) ->
  truthy feedback = true ->
  extractFeedbackText feedback = Ok (VStr text) ->
  text <> [] ->
  JSON_parse (cleanFeedbackText text) = Ok parsed ->
  truthy_prop parsed (lit "overallScore") ->
  truthy_prop parsed (lit "ATS") ->
  kv_set (lit "resume:" ++ uuid)
         (JSON_stringify
            (VObj (resume_record uuid resumePath imagePath
                     (lit "Acme") (lit "Engineer") (lit "Build things") parsed)))
         w6 = (Ok stored2, w7) ->
  navigate (lit "/resume/" ++ uuid) w7 = (Ok tt, w8) ->
  exists st,
    handleAnalyze (lit "Acme") (lit "Engineer") (lit "Build things") file
                  (start w store processing status) = (Ok VUndefined, st) /\
    last (calls st) = Some (CNavigate (lit "/resume/" ++ uuid) (Ok tt)) /\
    map call_kind (calls st) = pipeline_order.
Proof.
  intros Hup1 Htup1 Hpath1 Hconv Hfile Htimg Hup2 Htup2 Hpath2 Hid Hkv1 Hinstr
         Hai Htfb Hext Hne Hparse Hscore Hats Hkv2 Hnav.
  destruct (complete_run (lit "Acme") (lit "Engineer") (lit "Build things") file
              w w1 w2 w3 w4 w5 w6 w7 w8 store processing status
              uploadedFile ImageFile image uploadedImage resumePath imagePath
              uuid stored1 instructions feedback parsed stored2 text
              Hup1 Htup1 Hpath1 Hconv Hfile Htimg Hup2 Htup2 Hpath2 Hid Hkv1 Hinstr
              Hai Htfb Hext Hne Hparse Hscore Hats Hkv2 Hnav)
    as (st & Hrun & Hlast & Horder & _).
  exists st. split; [exact Hrun|]. split; [exact Hlast|exact Horder].
Qed.

End EndToEnd.

(** ** Runs on the scripted platform *)

Lemma run_pairing {A B} (p : A * B) : p = (fst p, snd p).
Proof. destruct p. reflexivity. Defined.

Example good_run_completes :
  fst (acme_run good_script) = Ok VUndefined /\
  statusText (snd (acme_run good_script)) = lit "Analysis Complete! Redirecting..." /\
  isProcessing (snd (acme_run good_script)) = true /\
  parser_inputs (snd (acme_run good_script)) = [serialize good_feedback] /\
  calls (snd (acme_run good_script)) =
    [ CUpload [demo_pdf] (Ok (VObj [(lit "path", demo_path)]));
      CConvert demo_pdf (demo_convert demo_pdf);
      CUpload [demo_png] (Ok (VObj [(lit "path", demo_image_path)]));
      CKvSet demo_key (serialize (demo_record (VStr []))) (Ok (VBool true));
      CFeedback demo_path demo_instructions
                (Ok (ai_message (VStr (fenced good_feedback))));
      CKvSet demo_key (serialize (demo_record good_feedback)) (Ok (VBool true));
      CNavigate (lit "/resume/" ++ demo_uuid) (Ok tt) ].
Proof. vm_compute. repeat split. Qed.

Example fence_is_stripped :
  cleanFeedbackText (fenced good_feedback) = serialize good_feedback.
Proof. vm_compute. reflexivity. Qed.

Lemma extract_string_content_witness :
  get_prop (ai_message (VStr (lit "hello"))) (lit "message")
    = Ok (VObj [(lit "role", VStr (lit "assistant"));
                (lit "content", VStr (lit "hello"))]) /\
  extractFeedbackText (ai_message (VStr (lit "hello"))) = Ok (VStr (lit "hello")).
Proof.
  split; [reflexivity|].
  apply (extract_string_content
           (ai_message (VStr (lit "hello")))
           (VObj [(lit "role", VStr (lit "assistant"));
                  (lit "content", VStr (lit "hello"))])
           (lit "hello")); reflexivity.
Defined.

Lemma extract_text_flagged_item_witness :
  is_text_item image_item = Ok false /\
  text_flagged (text_item (lit "hello")) = true /\
  extractFeedbackText (ai_message (VArr [image_item; text_item (lit "hello")]))
    = Ok (VStr (lit "hello")).
Proof.
  split; [reflexivity|]. split; [reflexivity|].
  apply (extract_text_flagged_item
           (ai_message (VArr [image_item; text_item (lit "hello")]))
           (VObj [(lit "role", VStr (lit "assistant"));
                  (lit "content", VArr [image_item; text_item (lit "hello")])])
           (text_item (lit "hello")) (VStr (lit "hello")) [image_item] []).
  - reflexivity.
  - reflexivity.
  - constructor; [reflexivity|constructor].
  - reflexivity.
  - reflexivity.
  - reflexivity.
Defined.

(** C3 as stated fails: the array holds exactly one text-flagged item, whose
    text is "answer", but the item before it has a truthy [text], and that
    is what is extracted. *)
Lemma earlier_text_item_wins :
  List.filter text_flagged [note_item; text_item (lit "answer")]
    = [text_item (lit "answer")] /\
  get_prop (text_item (lit "answer")) (lit "text") = Ok (VStr (lit "answer")) /\
  extractFeedbackText (ai_message (VArr [note_item; text_item (lit "answer")]))
    = Ok (VStr (lit "thinking")) /\
  extractFeedbackText (ai_message (VArr [note_item; text_item (lit "answer")]))
    <> Ok (VStr (lit "answer")).
Proof.
  split; [reflexivity|]. split; [reflexivity|]. split; [reflexivity|].
  vm_compute. discriminate.
Qed.

Lemma other_content_reported_invalid_witness :
  In (CFeedback demo_path demo_instructions (Ok (ai_message (int 42))))
     (calls (snd (acme_run number_content_script))) /\
  typeof (int 42) <> lit "string" /\
  extractFeedbackText (ai_message (int 42)) = Ok (VStr []) /\
  fst (acme_run number_content_script) = Ok VUndefined /\
  isProcessing (snd (acme_run number_content_script)) = false /\
  statusText (snd (acme_run number_content_script))
    = lit "Invalid AI response format. Please try again." /\
  parser_inputs (snd (acme_run number_content_script)) = [].
Proof.
  assert (Hin : In (CFeedback demo_path demo_instructions (Ok (ai_message (int 42))))
                   (calls (snd (acme_run number_content_script)))).
  { vm_compute. auto 10. }
  assert (Hty : typeof (int 42) <> lit "string").
  { vm_compute. discriminate. }
  split; [exact Hin|]. split; [exact Hty|].
  apply (other_content_reported_invalid
           (H := scripted number_content_script)
           (lit "Acme") (lit "Engineer") (lit "Build things") demo_pdf
           0%nat ∅ false [] _ _ (run_pairing (acme_run number_content_script))
           demo_path demo_instructions (ai_message (int 42))
           (VObj [(lit "role", VStr (lit "assistant")); (lit "content", int 42)])
           (int 42) Hin); [reflexivity|reflexivity|reflexivity|exact Hty|reflexivity].
Defined.


Lemma written_records_keep_feedback_invariant_witness :
  In (CKvSet demo_key (serialize (demo_record good_feedback)) (Ok (VBool true)))
     (calls (snd (acme_run good_script))) /\
  exists uuid props,
    demo_key = lit "resume:" ++ uuid /\
    serialize (demo_record good_feedback) = serialize (VObj props) /\
    lookup_prop (lit "id") props = VStr uuid /\
    feedback_ok (lookup_prop (lit "feedback") props).
Proof.
  assert (Hin : In (CKvSet demo_key (serialize (demo_record good_feedback))
                           (Ok (VBool true)))
                   (calls (snd (acme_run good_script)))).
  { vm_compute. auto 10. }
  split; [exact Hin|].
  exact (written_records_keep_feedback_invariant
           (H := scripted good_script)
           (lit "Acme") (lit "Engineer") (lit "Build things") demo_pdf
           0%nat ∅ false [] _ _ (run_pairing (acme_run good_script))
           _ _ _ Hin).
Defined.

Lemma external_calls_in_pipeline_order_witness :
  map call_kind (calls (snd (acme_run good_script))) = pipeline_order /\
  map call_kind (calls (snd (acme_run zero_score_script))) `prefix_of` pipeline_order /\
  gated (calls (snd (acme_run zero_score_script))) = true.
Proof.
  split; [vm_compute; reflexivity|].
  destruct (external_calls_in_pipeline_order
              (H := scripted zero_score_script)
              (lit "Acme") (lit "Engineer") (lit "Build things") demo_pdf
              0%nat ∅ false [] _ _ (run_pairing (acme_run zero_score_script)))
    as (Hprefix & Hgated & _).
  split; [exact Hprefix|exact Hgated].
Defined.

Lemma zero_score_validation_failed :
  validation_failed (H := scripted zero_score_script)
                    (snd (acme_run zero_score_script)).
Proof.
  exists (serialize zero_score_feedback), zero_score_feedback.
  split; [vm_compute; auto|]. split; [vm_compute; reflexivity|].
  intros [(x & Hx & Htruthy) _].
  vm_compute in Hx. injection Hx as <-. vm_compute in Htruthy. discriminate Htruthy.
Defined.

Lemma pending_record_survives_failure_witness :
  In (CKvSet demo_key (serialize (demo_record (VStr []))) (Ok (VBool true)))
     (calls (snd (acme_run zero_score_script))) /\
  later_step_failed (H := scripted zero_score_script)
                    (snd (acme_run zero_score_script)) /\
  statusText (snd (acme_run zero_score_script))
    = lit "Invalid feedback format from AI. Please try again." /\
  kv_writes (calls (snd (acme_run zero_score_script)))
    = [CKvSet demo_key (serialize (demo_record (VStr []))) (Ok (VBool true))] /\
  kv (snd (acme_run zero_score_script)) !! demo_key
    = Some (serialize (demo_record (VStr []))).
Proof.
  assert (Hin : In (CKvSet demo_key (serialize (demo_record (VStr [])))
                           (Ok (VBool true)))
                   (calls (snd (acme_run zero_score_script)))).
  { vm_compute. auto 10. }
  assert (Hfail : later_step_failed (H := scripted zero_score_script)
                                    (snd (acme_run zero_score_script))).
  { right. right. right. exact zero_score_validation_failed. }
  split; [exact Hin|]. split; [exact Hfail|]. split; [vm_compute; reflexivity|].
  destruct (pending_record_survives_failure
              (H := scripted zero_score_script)
              (lit "Acme") (lit "Engineer") (lit "Build things") demo_pdf
              0%nat ∅ false [] _ _ (run_pairing (acme_run zero_score_script))
              _ _ _ Hin Hfail)
    as (Hwrites & _ & Hlookup & _).
  split; [exact Hwrites|exact Hlookup].
Defined.

Lemma null_upload_call_failed :
  call_failed (snd (acme_run null_upload_script)).
Proof.
  exists (CUpload [demo_pdf] (Ok VNull)). split; [vm_compute; auto|reflexivity].
Defined.

Lemma handleAnalyze_failure_semantics_witness :
  step_failed (H := scripted null_upload_script) (snd (acme_run null_upload_script)) /\
  fst (acme_run null_upload_script) = Ok VUndefined /\
  isProcessing (snd (acme_run null_upload_script)) = false /\
  statusText (snd (acme_run null_upload_script)) <> [].
Proof.
  assert (Hfail : step_failed (H := scripted null_upload_script)
                              (snd (acme_run null_upload_script))).
  { left. exact null_upload_call_failed. }
  split; [exact Hfail|].
  destruct (handleAnalyze_failure_semantics
              (H := scripted null_upload_script)
              (lit "Acme") (lit "Engineer") (lit "Build things") demo_pdf
              0%nat ∅ false [])
    as (st & Hrun & Hfailed & _).
  rewrite Hrun in Hfail |- *. cbn [fst snd] in Hfail |- *.
  split; [reflexivity|].
  destruct (Hfailed (or_introl Hfail)) as (Hflag & Hstatus & _).
  split; [exact Hflag|exact Hstatus].
Defined.

Lemma validation_gate_witness :
  (parser_inputs (snd (acme_run no_score_script)) = [serialize no_score_feedback] /\
   absent no_score_feedback (lit "overallScore") /\
   statusText (snd (acme_run no_score_script))
     = lit "Invalid feedback format from AI. Please try again." /\
   isProcessing (snd (acme_run no_score_script)) = false /\
   length (kv_writes (calls (snd (acme_run no_score_script)))) = 1%nat /\
   List.filter is_navigate (calls (snd (acme_run no_score_script))) = []) /\
  (parser_inputs (snd (acme_run good_script)) = [serialize good_feedback] /\
   truthy_prop good_feedback (lit "overallScore") /\
   truthy_prop good_feedback (lit "ATS") /\
   exists uuid resumePath imagePath earlier result later,
     calls (snd (acme_run good_script)) =
       earlier ++
       CKvSet (lit "resume:" ++ uuid)
              (serialize
                 (VObj (resume_record uuid resumePath imagePath
                          (lit "Acme") (lit "Engineer") (lit "Build things")
                          good_feedback)))
              result :: later /\
     length earlier = 5%nat /\
     match result with
     | Ok _ => exists outcome, later = [CNavigate (lit "/resume/" ++ uuid) outcome]
     | Err _ => later = []
     end).
Proof.
  assert (Habsent : absent no_score_feedback (lit "overallScore")) by reflexivity.
  assert (Hscore : truthy_prop good_feedback (lit "overallScore")).
  { exists (int 85). split; reflexivity. }
  assert (Hats : truthy_prop good_feedback (lit "ATS")).
  { exists ats_part. split; reflexivity. }
  split.
  - split; [vm_compute; reflexivity|]. split; [exact Habsent|].
    destruct (validation_gate
                (H := scripted no_score_script)
                (lit "Acme") (lit "Engineer") (lit "Build things") demo_pdf
                0%nat ∅ false [] _ _ (run_pairing (acme_run no_score_script))
                (serialize no_score_feedback) no_score_feedback)
      as [Hreject _]; [vm_compute; reflexivity|vm_compute; reflexivity|].
    destruct (Hreject (or_introl Habsent)) as (_ & Hrest). exact Hrest.
  - split; [vm_compute; reflexivity|]. split; [exact Hscore|]. split; [exact Hats|].
    destruct (validation_gate
                (H := scripted good_script)
                (lit "Acme") (lit "Engineer") (lit "Build things") demo_pdf
                0%nat ∅ false [] _ _ (run_pairing (acme_run good_script))
                (serialize good_feedback) good_feedback)
      as [_ Hproceed]; [vm_compute; reflexivity|vm_compute; reflexivity|].
    exact (Hproceed Hscore Hats).
Defined.

(** C2, on the failing input: the parsed object has both [overallScore]
    (with value 0) and [ATS], so neither field is absent; the handler still
    rejects it with the invalid-format status, clears the flag, makes no
    second write and does not navigate. *)
Lemma zero_score_is_rejected :
  parser_inputs (snd (acme_run zero_score_script)) = [serialize zero_score_feedback] /\
  script_parse zero_score_script (serialize zero_score_feedback)
    = Ok zero_score_feedback /\
  get_prop zero_score_feedback (lit "overallScore") = Ok (int 0) /\
  get_prop zero_score_feedback (lit "ATS") = Ok ats_part /\
  ~ absent zero_score_feedback (lit "overallScore") /\
  ~ absent zero_score_feedback (lit "ATS") /\
  statusText (snd (acme_run zero_score_script))
    = lit "Invalid feedback format from AI. Please try again." /\
  isProcessing (snd (acme_run zero_score_script)) = false /\
  length (kv_writes (calls (snd (acme_run zero_score_script)))) = 1%nat /\
  List.filter is_navigate (calls (snd (acme_run zero_score_script))) = [].
Proof.
  vm_compute. repeat split; discriminate.
Qed.

Lemma acme_pipeline_navigates_witness :
  exists st,
    acme_run good_script = (Ok VUndefined, st) /\
    last (calls st) = Some (CNavigate (lit "/resume/" ++ demo_uuid) (Ok tt)) /\
    map call_kind (calls st) = pipeline_order.
Proof.
  apply (acme_pipeline_navigates
           (H := scripted good_script) demo_pdf
           0%nat 1%nat 2%nat 3%nat 3%nat 4%nat 5%nat 6%nat 7%nat ∅ false []
           (VObj [(lit "path", demo_path)])
           (VObj [(lit "imageUrl", VStr (lit "blob:resume.png")); (lit "file", demo_png)])
           demo_png
           (VObj [(lit "path", demo_image_path)])
           demo_path demo_image_path demo_uuid (VBool true) demo_instructions
           (ai_message (VStr (fenced good_feedback))) good_feedback (VBool true)
           (fenced good_feedback)).
  all: try reflexivity.
  all: try (vm_compute; discriminate).
  - exists (int 85). split; reflexivity.
  - exists ats_part. split; reflexivity.
Defined.

(** C4, on the failing input: with the inputs of the scenario and
    collaborators that all succeed, the text of the AI response parses to an
    object that contains [overallScore] (with value 0) and [ATS]; the run
    stops after the AI call, without the second write and without the
    navigation. *)
Lemma acme_zero_score_does_not_navigate :
  script_parse zero_score_array_script
      (cleanFeedbackText (fenced zero_score_feedback)) = Ok zero_score_feedback /\
  lookup_prop (lit "overallScore")
      [(lit "overallScore", int 0); (lit "ATS", ats_part)] = int 0 /\
  lookup_prop (lit "ATS")
      [(lit "overallScore", int 0); (lit "ATS", ats_part)] = ats_part /\
  map call_kind (calls (snd (acme_run zero_score_array_script)))
    = [KUpload; KConvert; KUpload; KKvSet; KFeedback] /\
  gated (calls (snd (acme_run zero_score_array_script))) = true /\
  call_succeeded
    (CFeedback demo_path demo_instructions
       (Ok (ai_message (VArr [text_item (fenced zero_score_feedback)])))) = true /\
  List.filter is_navigate (calls (snd (acme_run zero_score_array_script))) = [] /\
  ~ navigated (snd (acme_run zero_score_array_script)).
Proof.
  split; [vm_compute; reflexivity|]. split; [reflexivity|]. split; [reflexivity|].
  split; [vm_compute; reflexivity|]. split; [vm_compute; reflexivity|].
  split; [reflexivity|]. split; [vm_compute; reflexivity|].
  intros [to Hlast]. vm_compute in Hlast. discriminate Hlast.
Qed.

(** ** More on the cleaning of line 92 *)

Section Cleaning.

Local Open Scope nat_scope.

Lemma starts_with_split (p s : JsString) :
  starts_with p s = true -> exists rest, s = (p ++ rest)%list.
Proof.
  revert s. induction p as [|a p IH]; intros s Hs.
  - exists s. reflexivity.
  - destruct s as [|b s]; [discriminate Hs|].
    cbn [starts_with] in Hs. apply andb_prop in Hs as [Hab Hs].
    apply N.eqb_eq in Hab. subst b.
    destruct (IH s Hs) as [rest ->]. exists rest. reflexivity.
Qed.

Lemma occurs_in_cons (p : JsString) (c : N) (s : JsString) :
  occurs_in p s -> occurs_in p (c :: s).
Proof. intros (pre & post & ->). exists (c :: pre), post. reflexivity. Qed.

(** A text in which the marker does not occur is left as it is. *)
Lemma replace_all_absent (p s : JsString) :
  ~ occurs_in p s -> replace_all p s = s.
Proof.
  induction s as [|c s IH]; intros Hno; [reflexivity|].
  destruct (starts_with p (c :: s)) eqn:Hs.
  - exfalso. apply Hno. destruct (starts_with_split _ _ Hs) as [rest Hrest].
    exists [], rest. exact Hrest.
  - rewrite (replace_all_keep _ _ _ Hs). f_equal. apply IH.
    intros Hocc. apply Hno, occurs_in_cons, Hocc.
Qed.

Lemma replace_all_sublist (p s : JsString) : replace_all p s `sublist_of` s.
Proof.
  remember (length s) as n eqn:Hn.
  revert s Hn. induction n as [n IH] using lt_wf_ind. intros s Hn.
  destruct s as [|c s]; [constructor|].
  destruct (starts_with p (c :: s)) eqn:Hs.
  - rewrite (replace_all_match _ _ _ Hs).
    apply sublist_cons.
    etransitivity; [|apply sublist_drop].
    apply (IH (length (drop (pred (match_length p (c :: s))) s))); [|reflexivity].
    subst n. simpl. pose proof (drop_length_le (pred (match_length p (c :: s))) s). lia.
  - rewrite (replace_all_keep _ _ _ Hs). apply sublist_skip.
    apply (IH (length s)); [subst n; simpl; lia|reflexivity].
Qed.

Lemma trim_sublist (s : JsString) : trim s `sublist_of` s.
Proof.
  unfold trim.
  destruct (trim_start_suffix s) as [pre Hpre].
  destruct (trim_end_prefix (trim_start s)) as [post Hpost].
  rewrite Hpre at 2. rewrite Hpost at 2.
  apply sublist_inserts_l, sublist_inserts_r. reflexivity.
Qed.

(** X1: cleaning only deletes code units of the text: what is handed to the
    parser is a subsequence of the extracted text, in the same order. *)
Theorem cleanFeedbackText_only_deletes (feedbackText : JsString) :
  cleanFeedbackText feedbackText `sublist_of` feedbackText.
Proof.
  unfold cleanFeedbackText.
  etransitivity; [apply trim_sublist|].
  etransitivity; apply replace_all_sublist.
Qed.

Lemma clean_fence_free (s : JsString) :
  ~ occurs_in fence s -> cleanFeedbackText s = trim s.
Proof.
  intros Hno. unfold cleanFeedbackText.
  rewrite (replace_all_absent fence_json).
  - rewrite (replace_all_absent fence _ Hno). reflexivity.
  - intros Hocc. apply Hno. rewrite fence_json_units in Hocc.
    exact (occurs_in_longer _ _ _ Hocc).
Qed.

(** X2: a text in which no fence occurs is only trimmed: neither
    replacement touches it. *)
Theorem cleanFeedbackText_without_fence (feedbackText : JsString) :
  ~ occurs_in fence feedbackText ->
  cleanFeedbackText feedbackText = trim feedbackText.
Proof. intros Hno. apply clean_fence_free, Hno. Qed.

Lemma trim_start_starts_clean (s : JsString) : starts_clean (trim_start s).
Proof.
  induction s as [|c s IH]; simpl; [exact I|].
  destruct (is_white_space c) eqn:Hc; [exact IH|exact Hc].
Qed.

Lemma trim_start_fixed (s : JsString) : starts_clean s -> trim_start s = s.
Proof. destruct s as [|c s]; simpl; [reflexivity|]. intros ->. reflexivity. Qed.

Lemma trim_start_snoc (s : JsString) (c : N) :
  is_white_space c = false -> trim_start (s ++ [c]) = (trim_start s ++ [c])%list.
Proof.
  intros Hc. induction s as [|d s IH]; simpl.
  - rewrite Hc. reflexivity.
  - destruct (is_white_space d); [exact IH|reflexivity].
Qed.

Lemma trim_end_cons (c : N) (s : JsString) :
  is_white_space c = false -> trim_end (c :: s) = c :: trim_end s.
Proof.
  intros Hc. unfold trim_end. simpl rev.
  rewrite (trim_start_snoc _ _ Hc), rev_app_distr. reflexivity.
Qed.

Lemma trim_end_starts_clean (s : JsString) : starts_clean s -> starts_clean (trim_end s).
Proof.
  destruct s as [|c s]; [intros _; exact I|].
  simpl. intros Hc. rewrite (trim_end_cons _ _ Hc). exact Hc.
Qed.

Lemma trim_end_fixed (s : JsString) : trim_end (trim_end s) = trim_end s.
Proof.
  unfold trim_end. rewrite rev_involutive.
  rewrite (trim_start_fixed _ (trim_start_starts_clean _)). reflexivity.
Qed.

Lemma trim_idempotent (s : JsString) : trim (trim s) = trim s.
Proof.
  unfold trim.
  rewrite (trim_start_fixed (trim_end (trim_start s))).
  - apply trim_end_fixed.
  - apply trim_end_starts_clean, trim_start_starts_clean.
Qed.

(** X3: cleaning a cleaned text changes nothing. *)
Theorem cleanFeedbackText_idempotent (feedbackText : JsString) :
  cleanFeedbackText (cleanFeedbackText feedbackText) = cleanFeedbackText feedbackText.
Proof.
  rewrite (clean_fence_free (cleanFeedbackText feedbackText)).
  - unfold cleanFeedbackText at 1 2. apply trim_idempotent.
  - apply cleanFeedbackText_no_fence.
Qed.

Lemma last_rev_head {A} (l : list A) : last (rev l) = head l.
Proof. destruct l as [|x l]; [reflexivity|]. simpl. apply last_snoc. Qed.

Lemma starts_clean_head (s : JsString) (c : N) :
  starts_clean s -> head s = Some c -> is_white_space c = false.
Proof. destruct s; simpl; intros Hs Hh; [discriminate Hh|]. congruence. Qed.

(** X4: the text handed to the parser neither starts nor ends with white
    space. *)
Theorem cleanFeedbackText_trimmed (feedbackText : JsString) (c : N) :
  head (cleanFeedbackText feedbackText) = Some c \/
  last (cleanFeedbackText feedbackText) = Some c ->
  is_white_space c = false.
Proof.
  unfold cleanFeedbackText, trim.
  set (t := trim_start (replace_all fence (replace_all fence_json feedbackText))).
  assert (Ht : starts_clean t) by apply trim_start_starts_clean.
  intros [Hh|Hl].
  - exact (starts_clean_head _ _ (trim_end_starts_clean _ Ht) Hh).
  - unfold trim_end in Hl. rewrite last_rev_head in Hl.
    exact (starts_clean_head _ _ (trim_start_starts_clean _) Hl).
Qed.

Lemma replace_all_through (p : JsString) (s t : JsString) :
  (forall c rest, c <> 96%N -> starts_with p (c :: rest) = false) ->
  Forall (fun c => c <> 96%N) s ->
  replace_all p (s ++ t)%list = (s ++ replace_all p t)%list.
Proof.
  intros Hp Hs. induction Hs as [|c s Hc _ IH]; [reflexivity|].
  cbn [app]. rewrite (replace_all_keep _ _ _ (Hp c _ Hc)). rewrite IH. reflexivity.
Qed.

Lemma fence_needs_backtick (c : N) (rest : JsString) :
  c <> 96%N -> starts_with fence (c :: rest) = false.
Proof.
  intros Hc. rewrite fence_units. cbn [starts_with].
  apply N.eqb_neq in Hc. rewrite N.eqb_sym, Hc. reflexivity.
Qed.

Lemma fence_json_needs_backtick (c : N) (rest : JsString) :
  c <> 96%N -> starts_with fence_json (c :: rest) = false.
Proof.
  intros Hc. change fence_json with (96%N :: lit "``json"). cbn [starts_with].
  apply N.eqb_neq in Hc. rewrite N.eqb_sym, Hc. reflexivity.
Qed.

Lemma trim_body_newline (body : JsString) :
  trim body = body -> trim (body ++ [newline]) = body.
Proof.
  intros Hb.
  assert (Hclean : starts_clean body).
  { rewrite <- Hb. apply trim_end_starts_clean, trim_start_starts_clean. }
  assert (Hend : trim_end body = body).
  { unfold trim in Hb. rewrite (trim_start_fixed _ Hclean) in Hb. exact Hb. }
  unfold trim.
  destruct body as [|c body]; [reflexivity|].
  rewrite (trim_start_fixed ((c :: body) ++ [newline])) by exact Hclean.
  unfold trim_end in *. rewrite rev_app_distr. exact Hend.
Qed.

Lemma replace_json_plain_opening (x : JsString) :
  replace_all fence_json (fence ++ newline :: x)%list
  = (fence ++ newline :: replace_all fence_json x)%list.
Proof.
  change (fence ++ newline :: x)%list with (96 :: 96 :: 96 :: newline :: x)%N%list.
  rewrite (replace_all_keep fence_json 96%N (96 :: 96 :: newline :: x)%N eq_refl).
  rewrite (replace_all_keep fence_json 96%N (96 :: newline :: x)%N eq_refl).
  rewrite (replace_all_keep fence_json 96%N (newline :: x)%N eq_refl).
  rewrite (replace_all_keep fence_json newline x eq_refl).
  reflexivity.
Qed.

(** X5: the fenced answer of the AI is unwrapped: for a body without
    backticks and without outer white space, the opening fence (with or
    without the [json] tag) and its newline, and the newline and closing
    fence, are removed and the body is what the parser gets. *)
Theorem fenced_body_is_unwrapped (body : JsString) :
  Forall (fun c => c <> 96%N) body ->
  trim body = body ->
  cleanFeedbackText (fence_json ++ newline :: body ++ newline :: fence) = body /\
  cleanFeedbackText (fence ++ newline :: body ++ newline :: fence) = body.
Proof.
  intros Hticks Htrim.
  assert (Htail_json : replace_all fence_json (newline :: fence) = newline :: fence)
    by reflexivity.
  assert (Htail : replace_all fence (newline :: fence) = [newline]) by reflexivity.
  pose proof (replace_all_through fence_json body (newline :: fence)
                fence_json_needs_backtick Hticks) as Hbody_json.
  pose proof (replace_all_through fence body (newline :: fence)
                fence_needs_backtick Hticks) as Hbody.
  rewrite Htail_json in Hbody_json. rewrite Htail in Hbody.
  unfold cleanFeedbackText. split.
  - rewrite replace_all_marker_newline by discriminate.
    rewrite Hbody_json, Hbody. apply trim_body_newline, Htrim.
  - rewrite replace_json_plain_opening, Hbody_json.
    rewrite replace_all_marker_newline by discriminate.
    rewrite Hbody. apply trim_body_newline, Htrim.
Qed.

End Cleaning.

(** ** More on the text extraction of lines 77-83 *)

Lemma array_find_none (pred : JsVal -> Outcome bool) (items : list JsVal) :
  Forall (fun x => pred x = Ok false) items ->
  array_find pred items = Ok VUndefined.
Proof.
  intros Hall. rewrite <- (app_nil_r items). rewrite (array_find_skip _ _ _ Hall).
  reflexivity.
Qed.

(** X6: an array all of whose items are other than [null] and [undefined],
    none of them text-flagged and none carrying a truthy [text] (the empty
    array among them), yields the empty text. *)
Theorem extract_array_without_text (feedback message : JsVal) (items : list JsVal) :
  get_prop feedback (lit "message") = Ok message ->
  get_prop message (lit "content") = Ok (VArr items) ->
  Forall (fun x => is_text_item x = Ok false) items ->
  extractFeedbackText feedback = Ok (VStr []).
Proof.
  intros Hm Hc Hall. rewrite (extract_of_content _ _ _ Hm Hc), typeof_string.
  rewrite (array_find_none _ _ Hall). reflexivity.
Qed.

(** X7: when the item that is found is text-flagged but its [text] is falsy,
    the item's [content] is taken if it is truthy, and the empty text
    otherwise. *)
Theorem extract_falls_back_to_content
    (feedback message item t c : JsVal) (pre post : list JsVal) :
  get_prop feedback (lit "message") = Ok message ->
  get_prop message (lit "content") = Ok (VArr (pre ++ item :: post)) ->
  Forall (fun x => is_text_item x = Ok false) pre ->
  text_flagged item = true ->
  get_prop item (lit "text") = Ok t ->
  truthy t = false ->
  get_prop item (lit "content") = Ok c ->
  extractFeedbackText feedback = Ok (if truthy c then c else VStr []).
Proof.
  intros Hm Hc Hpre Hflag Ht Hfalsy Hcont.
  rewrite (extract_of_content _ _ _ Hm Hc), typeof_string.
  rewrite (array_find_skip _ _ _ Hpre). simpl.
  unfold text_flagged in Hflag. unfold is_text_item.
  destruct (get_prop item (lit "type")) as [ty|e] eqn:Hty; [|discriminate Hflag].
  simpl. rewrite Hflag. simpl.
  rewrite (get_prop_opt_defined _ _ _ _ Hty), Ht. simpl.
  rewrite (get_prop_opt_defined _ _ _ _ Hty), Hcont. simpl.
  unfold js_or. rewrite Hfalsy. reflexivity.
Qed.

(** X8: a [null] or [undefined] item that is reached by the search makes
    the extraction throw the TypeError of reading its [type]; the items
    after it are not looked at. *)
Theorem extract_throws_on_null_item
    (feedback message item : JsVal) (pre post : list JsVal) (e : Exn) :
  get_prop feedback (lit "message") = Ok message ->
  get_prop message (lit "content") = Ok (VArr (pre ++ item :: post)) ->
  Forall (fun x => is_text_item x = Ok false) pre ->
  get_prop item (lit "type") = Err e ->
  extractFeedbackText feedback = Err e.
Proof.
  intros Hm Hc Hpre Herr.
  rewrite (extract_of_content _ _ _ Hm Hc), typeof_string.
  rewrite (array_find_skip _ _ _ Hpre). simpl.
  unfold is_text_item. rewrite Herr. reflexivity.
Qed.

(** ** More on the handler *)

Ltac props_agree :=
  repeat match goal with
         | H1 : get_prop ?v ?k = _, H2 : get_prop ?v ?k = _ |- _ =>
             rewrite H1 in H2; first [discriminate H2 | injection H2 as ?; subst]
         end.

Ltac facts_agree :=
  repeat match goal with
         | H1 : ?c = _, H2 : ?c = _ |- _ =>
             rewrite H1 in H2; first [discriminate H2 | simplify_eq]
         end.

Section MoreRuns.

Context {W : Type} `{Platform W}.

Local Abbreviation St := (St W).

(** X9: an awaited call that rejects ([fs.upload], [convertPdfToImage],
    [kv.set], [ai.feedback]), or a call of [navigate] that throws, is the
    last call of the run, and the run ends normally with the flag off and
    the status [Error: <message>] ([Error: Unknown error occurred] when what
    was thrown is not an [Error]). A promise returned by [navigate] is not
    awaited; what becomes of it is not covered. *)
Theorem rejected_call_is_reported
    (companyName jobTitle jobDescription : JsString) (file : JsVal)
    (w : W) (store : gmap JsString JsString) (processing : bool) (status : JsString)
    (r : Outcome JsVal) (st : St) :
  handleAnalyze companyName jobTitle jobDescription file
                (start w store processing status) = (r, st) ->
  forall c e, In c (calls st) -> call_error c = Some e ->
    r = Ok VUndefined /\
    isProcessing st = false /\
    statusText st = error_status e /\
    last (calls st) = Some c.
Proof.
  intros Hrun. pattern r, st. revert r st Hrun.
  apply handleAnalyze_run. unfold handleAnalyze_body.
  wp_run.
  all: intros c err Hin Herr; in_log Hin; subst c.
  all: cbn [call_error] in Herr; try discriminate Herr.
  all: injection Herr as <-.
  all: repeat split.
Qed.

(** X10: a call that resolves with a result the handler checks and finds
    falsy is reported by the message of its step, with the flag off: the
    first and the second upload, the [file] of the conversion, the AI
    response. *)
Theorem falsy_result_is_reported
    (companyName jobTitle jobDescription : JsString) (file : JsVal)
    (w : W) (store : gmap JsString JsString) (processing : bool) (status : JsString)
    (r : Outcome JsVal) (st : St) :
  handleAnalyze companyName jobTitle jobDescription file
                (start w store processing status) = (r, st) ->
  (forall files v,
     last (calls st) = Some (CUpload files (Ok v)) -> truthy v = false ->
     isProcessing st = false /\
     ((length (calls st) = 1%nat /\
       statusText st = lit "Failed to upload file. Please try again.") \/
      (length (calls st) = 3%nat /\
       statusText st = lit "Failed to upload File. Please try again."))) /\
  (forall f v x,
     last (calls st) = Some (CConvert f (Ok v)) ->
     get_prop v (lit "file") = Ok x -> truthy x = false ->
     isProcessing st = false /\
     statusText st = lit "Failed to convert file to image.") /\
  (forall path instructions v,
     last (calls st) = Some (CFeedback path instructions (Ok v)) ->
     truthy v = false ->
     isProcessing st = false /\
     statusText st = lit "Failed to analyze resume. Please try again.").
Proof.
  intros Hrun. pattern r, st. revert r st Hrun.
  apply handleAnalyze_run. unfold handleAnalyze_body.
  wp_run.
  all: split; [|split].
  all: intros until 1; cbn [last] in *; try discriminate.
  all: simplify_eq.
  all: intros; props_agree; try congruence.
  all: split; [reflexivity|]; auto.
Qed.

(** X11: when [JSON.parse] throws, the inner [catch] reports the parse
    failure with the flag off; the error does not reach the outer [catch],
    and there is no second write and no navigation. *)
Theorem parse_failure_is_reported
    (companyName jobTitle jobDescription : JsString) (file : JsVal)
    (w : W) (store : gmap JsString JsString) (processing : bool) (status : JsString)
    (r : Outcome JsVal) (st : St) :
  handleAnalyze companyName jobTitle jobDescription file
                (start w store processing status) = (r, st) ->
  forall text e,
    parser_inputs st = [text] ->
    JSON_parse text = Err e ->
    r = Ok VUndefined /\
    isProcessing st = false /\
    statusText st = lit "Failed to parse AI response. Please try again." /\
    length (kv_writes (calls st)) = 1%nat /\
    List.filter is_navigate (calls st) = [].
Proof.
  intros Hrun. pattern r, st. revert r st Hrun.
  apply handleAnalyze_run. unfold handleAnalyze_body.
  wp_run.
  all: intros text err Hin Hparse; try discriminate Hin.
  all: injection Hin as ->.
  all: try congruence.
  all: repeat split.
Qed.

(** X12: when the parsed value is [null] or [undefined], reading
    [overallScore] throws; the run ends through the outer [catch] with the
    flag off and the status of that error, not with the invalid-format
    message, and without a second write or a navigation. *)
Theorem null_parse_result_is_an_error
    (companyName jobTitle jobDescription : JsString) (file : JsVal)
    (w : W) (store : gmap JsString JsString) (processing : bool) (status : JsString)
    (r : Outcome JsVal) (st : St) :
  handleAnalyze companyName jobTitle jobDescription file
                (start w store processing status) = (r, st) ->
  forall text parsed e,
    parser_inputs st = [text] ->
    JSON_parse text = Ok parsed ->
    get_prop parsed (lit "overallScore") = Err e ->
    r = Ok VUndefined /\
    isProcessing st = false /\
    statusText st = error_status e /\
    length (kv_writes (calls st)) = 1%nat /\
    List.filter is_navigate (calls st) = [].
Proof.
  intros Hrun. pattern r, st. revert r st Hrun.
  apply handleAnalyze_run. unfold handleAnalyze_body.
  wp_run.
  all: intros text parsed err Hin Hparse Hscore; try discriminate Hin.
  all: injection Hin as ->.
  all: facts_agree.
  all: repeat split.
Qed.

(** X13: when the extraction of the text throws (no [message], a [null]
    item in the array), the run ends through the outer [catch] with the flag
    off and the status of that error, and the parser is not called. *)
Theorem extraction_error_is_reported
    (companyName jobTitle jobDescription : JsString) (file : JsVal)
    (w : W) (store : gmap JsString JsString) (processing : bool) (status : JsString)
    (r : Outcome JsVal) (st : St) :
  handleAnalyze companyName jobTitle jobDescription file
                (start w store processing status) = (r, st) ->
  forall path instructions feedback e,
    In (CFeedback path instructions (Ok feedback)) (calls st) ->
    truthy feedback = true ->
    extractFeedbackText feedback = Err e ->
    r = Ok VUndefined /\
    isProcessing st = false /\
    statusText st = error_status e /\
    parser_inputs st = [] /\
    length (kv_writes (calls st)) = 1%nat.
Proof.
  intros Hrun. pattern r, st. revert r st Hrun.
  apply handleAnalyze_run. unfold handleAnalyze_body.
  wp_run.
  all: intros path instructions fb err Hin Htruthy Hext; in_log Hin.
  all: injection Hin as -> -> ->.
  all: facts_agree.
  all: repeat split.
Qed.

(** X14: whenever the extracted text is falsy (empty string content, no
    text item, an item with neither text nor content), the run stops with
    the invalid-response status and the flag off, before the parser. *)
Theorem empty_text_is_invalid_response
    (companyName jobTitle jobDescription : JsString) (file : JsVal)
    (w : W) (store : gmap JsString JsString) (processing : bool) (status : JsString)
    (r : Outcome JsVal) (st : St) :
  handleAnalyze companyName jobTitle jobDescription file
                (start w store processing status) = (r, st) ->
  forall path instructions feedback text,
    In (CFeedback path instructions (Ok feedback)) (calls st) ->
    truthy feedback = true ->
    extractFeedbackText feedback = Ok text ->
    truthy text = false ->
    r = Ok VUndefined /\
    isProcessing st = false /\
    statusText st = lit "Invalid AI response format. Please try again." /\
    parser_inputs st = [] /\
    length (kv_writes (calls st)) = 1%nat.
Proof.
  intros Hrun. pattern r, st. revert r st Hrun.
  apply handleAnalyze_run. unfold handleAnalyze_body.
  wp_run.
  all: intros path instructions fb text Hin Htruthy Hext Hfalsy; in_log Hin.
  all: injection Hin as -> -> ->.
  all: facts_agree.
  all: repeat split.
Qed.

(** X15: when the extracted value is truthy but not a string (a [text] that
    is a number or an object), the call of [replace] throws: the run ends
    through the outer [catch] with an [Error: ...] status and the flag off,
    and the parser is not called. *)
Theorem non_string_text_is_an_error
    (companyName jobTitle jobDescription : JsString) (file : JsVal)
    (w : W) (store : gmap JsString JsString) (processing : bool) (status : JsString)
    (r : Outcome JsVal) (st : St) :
  handleAnalyze companyName jobTitle jobDescription file
                (start w store processing status) = (r, st) ->
  forall path instructions feedback text,
    In (CFeedback path instructions (Ok feedback)) (calls st) ->
    truthy feedback = true ->
    extractFeedbackText feedback = Ok text ->
    truthy text = true ->
    (forall s, text <> VStr s) ->
    r = Ok VUndefined /\
    isProcessing st = false /\
    (exists message, statusText st = lit "Error: " ++ message) /\
    parser_inputs st = [].
Proof.
  intros Hrun. pattern r, st. revert r st Hrun.
  apply handleAnalyze_run. unfold handleAnalyze_body.
  wp_run.
  all: intros path instructions fb text Hin Htruthy Hext Htext Hnot; in_log Hin.
  all: injection Hin as -> -> ->.
  all: facts_agree.
  all: try match goal with
           | Hc : clean_value _ = Ok _ |- _ =>
               apply clean_value_ok in Hc as (s0 & -> & _);
               exfalso; exact (Hnot s0 eq_refl)
           end.
  all: split; [reflexivity|]; split; [reflexivity|]; split; [|reflexivity].
  all: match goal with
       | Hc : clean_value _ = Err ?e |- _ =>
           unfold clean_value in Hc; destruct text; simplify_eq
       end.
  all: eexists; reflexivity.
Qed.

(** X16: a run that ends with the navigation leaves the processing flag
    on and the completion status in place, and the store is the initial
    store with the record that carries the feedback under [resume:<id>]:
    the second write has replaced the pending record. *)
Theorem completed_run_state
    (companyName jobTitle jobDescription : JsString) (file : JsVal)
    (w : W) (store : gmap JsString JsString) (processing : bool) (status : JsString)
    (r : Outcome JsVal) (st : St) :
  handleAnalyze companyName jobTitle jobDescription file
                (start w store processing status) = (r, st) ->
  navigated st ->
  r = Ok VUndefined /\
  isProcessing st = true /\
  statusText st = lit "Analysis Complete! Redirecting..." /\
  exists uuid resumePath imagePath parsed,
    parser_inputs st <> [] /\
    (forall text, In text (parser_inputs st) -> JSON_parse text = Ok parsed) /\
    kv st =
      <[lit "resume:" ++ uuid :=
          JSON_stringify
            (VObj (resume_record uuid resumePath imagePath
                     companyName jobTitle jobDescription parsed))]> store.
Proof.
  intros Hrun. pattern r, st. revert r st Hrun.
  apply handleAnalyze_run. unfold handleAnalyze_body.
  wp_run.
  all: intros [to Hlast]; cbn [last] in Hlast; try discriminate Hlast.
  split; [reflexivity|]. split; [reflexivity|]. split; [reflexivity|].
  do 4 eexists. split; [discriminate|]. split.
  - intros text Hin. in_log Hin. subst text. eassumption.
  - rewrite assign_record_feedback. apply insert_insert_eq.
Qed.

(** X17: the handler removes no entry of the store and changes at most
    one: every key bound before the run is bound after it, and two keys
    whose binding differs from the initial one are the same key. *)
Theorem store_is_only_extended_at_one_key
    (companyName jobTitle jobDescription : JsString) (file : JsVal)
    (w : W) (store : gmap JsString JsString) (processing : bool) (status : JsString)
    (r : Outcome JsVal) (st : St) :
  handleAnalyze companyName jobTitle jobDescription file
                (start w store processing status) = (r, st) ->
  (forall k, is_Some (store !! k) -> is_Some (kv st !! k)) /\
  (forall k1 k2,
     kv st !! k1 <> store !! k1 -> kv st !! k2 <> store !! k2 -> k1 = k2).
Proof.
  intros Hrun. pattern r, st. revert r st Hrun.
  apply handleAnalyze_run. unfold handleAnalyze_body.
  wp_run.
  all: split.
  all: try (intros k Hk; rewrite ?lookup_insert_is_Some'; auto; fail).
  all: intros k1 k2 H1 H2.
  all: try (exfalso; apply H1; reflexivity).
  all: destruct (decide (lit "resume:" ++ uuid = k1)) as [E1|E1];
       [|exfalso; apply H1; rewrite ?lookup_insert_ne by exact E1; reflexivity].
  all: destruct (decide (lit "resume:" ++ uuid = k2)) as [E2|E2];
       [|exfalso; apply H2; rewrite ?lookup_insert_ne by exact E2; reflexivity].
  all: congruence.
Qed.

(** X18: what flows between the calls: the file given to the second upload
    is the [file] of the conversion result, and the AI call gets the [path]
    of the first upload together with the instructions built from the job
    title and the job description. *)
Theorem data_flow_between_calls
    (companyName jobTitle jobDescription : JsString) (file : JsVal)
    (w : W) (store : gmap JsString JsString) (processing : bool) (status : JsString)
    (r : Outcome JsVal) (st : St) :
  handleAnalyze companyName jobTitle jobDescription file
                (start w store processing status) = (r, st) ->
  (forall files result,
     calls st !! 2%nat = Some (CUpload files result) ->
     exists converted image,
       calls st !! 1%nat = Some (CConvert file (Ok converted)) /\
       get_prop converted (lit "file") = Ok image /\
       files = [image]) /\
  (forall path instructions result,
     In (CFeedback path instructions result) (calls st) ->
     exists uploaded,
       calls st !! 0%nat = Some (CUpload [file] (Ok uploaded)) /\
       get_prop uploaded (lit "path") = Ok path /\
       prepareInstructions jobTitle jobDescription = Ok instructions).
Proof.
  intros Hrun. pattern r, st. revert r st Hrun.
  apply handleAnalyze_run. unfold handleAnalyze_body.
  wp_run.
  all: split.
  all: lazymatch goal with
       | |- forall files result, _ !! _ = _ -> _ =>
           intros files result Hth; cbn in Hth;
           first [ discriminate Hth
                 | injection Hth as <- <-; do 2 eexists;
                   split; [reflexivity|];
                   split; [first [eassumption|reflexivity]|reflexivity] ]
       | |- _ =>
           intros path0 instructions0 result Hin; in_log Hin;
           try (injection Hin as <- <- <-;
                eexists; split; [reflexivity|];
                split; first [eassumption|reflexivity])
       end.
Qed.

End MoreRuns.

(** ** The component: rendering and submission *)

Section ComponentFacts.

Context {W : Type} `{Platform W}.

(** How a run ends, seen from the component. *)
Lemma run_ends
    (companyName jobTitle jobDescription : JsString) (file : JsVal)
    (w : W) (store : gmap JsString JsString) (processing : bool) (status : JsString) :
  exists st,
    handleAnalyze companyName jobTitle jobDescription file
                  (start w store processing status) = (Ok VUndefined, st) /\
    ((navigated st /\ isProcessing st = true /\
      statusText st = lit "Analysis Complete! Redirecting...") \/
     (~ navigated st /\ isProcessing st = false)).
Proof.
  cut (exists r st,
         handleAnalyze companyName jobTitle jobDescription file
                       (start w store processing status) = (r, st) /\
         (r = Ok VUndefined /\
          ((navigated st /\ isProcessing st = true /\
            statusText st = lit "Analysis Complete! Redirecting...") \/
           (~ navigated st /\ isProcessing st = false)))).
  { intros (r & st & Hrun & -> & Hend). exists st. split; [exact Hrun|exact Hend]. }
  apply handleAnalyze_total. unfold handleAnalyze_body.
  wp_run.
  all: split; [reflexivity|].
  all: try (right; split; [|reflexivity];
            intros [to Hlast]; cbn [last] in Hlast; discriminate Hlast).
  left. split; [eexists; reflexivity|]. split; reflexivity.
Qed.

(** X19: what the page shows after a run. After a run that navigated, the
    completion status and the scan image, without the form. After any other
    run, the prompt and the form again: the flag is off, so the failure
    message that was set is not what the heading shows. *)
Theorem view_after_run
    (companyName jobTitle jobDescription : JsString) (file : JsVal)
    (w : W) (store : gmap JsString JsString) (processing : bool) (status : JsString)
    (r : Outcome JsVal) (st : St W) :
  handleAnalyze companyName jobTitle jobDescription file
                (start w store processing status) = (r, st) ->
  (navigated st ->
     render (mkComponent file st)
     = mkView (lit "Analysis Complete! Redirecting...") true false) /\
  (~ navigated st ->
     render (mkComponent file st)
     = mkView (lit "Drop your resume for an ATS score and improvement tips")
              false true).
Proof.
  intros Hrun.
  destruct (run_ends companyName jobTitle jobDescription file w store processing status)
    as (st' & Hrun' & Hend).
  rewrite Hrun in Hrun'. injection Hrun' as _ <-.
  unfold render. cbn [ui].
  destruct Hend as [(Hnav & Hflag & Hstatus)|(Hnot & Hflag)]; rewrite Hflag.
  - split; [intros _; rewrite Hstatus; reflexivity|intros Hno; contradiction].
  - split; [intros Hnav; contradiction|intros _; reflexivity].
Qed.

(** X20: a submit without an enclosing form, or while no file is selected,
    prevents the default action and does nothing else: no call is made and
    the component is as it was. *)
Theorem submit_without_form_or_file (e : SubmitEvent) (c : Component) :
  closest_form e = None \/ truthy (file c) = false ->
  handleSubmit e c = Some (mkSubmitted true c).
Proof.
  intros Hguard. unfold handleSubmit.
  destruct (closest_form e) as [formData|]; [|reflexivity].
  destruct Hguard as [Hform|Hfile]; [discriminate Hform|].
  rewrite Hfile. reflexivity.
Qed.

(** X21: a submit with the form and a selected file analyses the file
    selected last with the three values of the form; the promise it does
    not await is fulfilled, never rejected; and afterwards either the
    handler has navigated or the form is shown again. *)
Theorem submit_runs_analysis
    (e : SubmitEvent) (formData : list (JsString * JsVal))
    (companyName jobTitle jobDescription : JsString) (earlier selected : JsVal)
    (w : W) (store : gmap JsString JsString) (processing : bool) (status : JsString) :
  closest_form e = Some formData ->
  formData_get formData (lit "company-name") = VStr companyName ->
  formData_get formData (lit "job-title") = VStr jobTitle ->
  formData_get formData (lit "job-description") = VStr jobDescription ->
  truthy selected = true ->
  exists st,
    handleAnalyze companyName jobTitle jobDescription selected
                  (start w store processing status) = (Ok VUndefined, st) /\
    handleSubmit e (handleFileSelect selected
                      (mkComponent earlier (start w store processing status)))
    = Some (mkSubmitted true (mkComponent selected st)) /\
    (navigated st \/ form_shown (render (mkComponent selected st)) = true).
Proof.
  intros Hform Hcompany Htitle Hdescription Hfile.
  destruct (run_ends companyName jobTitle jobDescription selected
              w store processing status) as (st & Hrun & Hend).
  exists st. split; [exact Hrun|]. split.
  - unfold handleSubmit, handleFileSelect. cbn [file ui].
    rewrite Hform, Hfile, Hcompany, Htitle, Hdescription. cbn [negb].
    rewrite Hrun. reflexivity.
  - destruct Hend as [(Hnav & _)|(_ & Hflag)]; [left; exact Hnav|].
    right. unfold render. cbn [ui]. rewrite Hflag. reflexivity.
Qed.

End ComponentFacts.

(** ** The added properties on explicit inputs *)

Lemma occursb_sound_not (p s : JsString) : occursb p s = false -> ~ occurs_in p s.
Proof. intros Hb Hocc. apply occursb_complete in Hocc. congruence. Qed.

Lemma cleanFeedbackText_without_fence_witness :
  ~ occurs_in fence (lit "  {} ") /\
  cleanFeedbackText (lit "  {} ") = lit "{}".
Proof.
  assert (Hno : ~ occurs_in fence (lit "  {} ")).
  { apply occursb_sound_not. vm_compute. reflexivity. }
  split; [exact Hno|].
  rewrite (cleanFeedbackText_without_fence (lit "  {} ") Hno).
  vm_compute. reflexivity.
Defined.

Lemma cleanFeedbackText_trimmed_witness :
  head (cleanFeedbackText (fenced good_feedback)) = Some 123 /\
  is_white_space 123 = false.
Proof.
  assert (Hh : head (cleanFeedbackText (fenced good_feedback)) = Some 123).
  { vm_compute. reflexivity. }
  split; [exact Hh|].
  exact (cleanFeedbackText_trimmed (fenced good_feedback) 123 (or_introl Hh)).
Defined.

Lemma fenced_body_is_unwrapped_witness :
  trim (serialize good_feedback) = serialize good_feedback /\
  cleanFeedbackText (fenced good_feedback) = serialize good_feedback.
Proof.
  assert (Htrim : trim (serialize good_feedback) = serialize good_feedback).
  { vm_compute. reflexivity. }
  assert (Hticks : Forall (fun c => c <> 96) (serialize good_feedback)).
  { apply (bool_decide_unpack (Forall (fun c : N => c <> 96) (serialize good_feedback))).
    vm_compute. exact I. }
  split; [exact Htrim|].
  exact (proj1 (fenced_body_is_unwrapped (serialize good_feedback) Hticks Htrim)).
Defined.

Lemma extract_array_without_text_witness :
  is_text_item image_item = Ok false /\
  extractFeedbackText (ai_message (VArr [image_item])) = Ok (VStr []).
Proof.
  split; [reflexivity|].
  apply (extract_array_without_text
           (ai_message (VArr [image_item]))
           (VObj [(lit "role", VStr (lit "assistant"));
                  (lit "content", VArr [image_item])])
           [image_item]).
  - reflexivity.
  - reflexivity.
  - constructor; [reflexivity|constructor].
Defined.

Lemma extract_falls_back_to_content_witness :
  text_flagged content_item = true /\
  get_prop content_item (lit "text") = Ok (VStr []) /\
  extractFeedbackText (ai_message (VArr [image_item; content_item]))
    = Ok (VStr (lit "from content")).
Proof.
  split; [reflexivity|]. split; [reflexivity|].
  apply (extract_falls_back_to_content
           (ai_message (VArr [image_item; content_item]))
           (VObj [(lit "role", VStr (lit "assistant"));
                  (lit "content", VArr [image_item; content_item])])
           content_item (VStr []) (VStr (lit "from content")) [image_item] []).
  - reflexivity.
  - reflexivity.
  - constructor; [reflexivity|constructor].
  - reflexivity.
  - reflexivity.
  - reflexivity.
  - reflexivity.
Defined.

Lemma extract_throws_on_null_item_witness :
  get_prop VNull (lit "type") = Err (type_error_read (lit "null") (lit "type")) /\
  extractFeedbackText
    (ai_message (VArr [image_item; VNull; text_item (lit "answer")]))
    = Err (type_error_read (lit "null") (lit "type")).
Proof.
  split; [reflexivity|].
  apply (extract_throws_on_null_item
           (ai_message (VArr [image_item; VNull; text_item (lit "answer")]))
           (VObj [(lit "role", VStr (lit "assistant"));
                  (lit "content", VArr [image_item; VNull; text_item (lit "answer")])])
           VNull [image_item] [text_item (lit "answer")]).
  - reflexivity.
  - reflexivity.
  - constructor; [reflexivity|constructor].
  - reflexivity.
Defined.

Lemma rejected_call_is_reported_witness :
  calls (snd (acme_run offline_script))
    = [CUpload [demo_pdf] (Err (ErrorInstance (lit "network down")))] /\
  isProcessing (snd (acme_run offline_script)) = false /\
  statusText (snd (acme_run offline_script)) = lit "Error: network down".
Proof.
  assert (Hcalls : calls (snd (acme_run offline_script))
                   = [CUpload [demo_pdf] (Err (ErrorInstance (lit "network down")))]).
  { vm_compute. reflexivity. }
  split; [exact Hcalls|].
  destruct (rejected_call_is_reported
              (H := scripted offline_script)
              (lit "Acme") (lit "Engineer") (lit "Build things") demo_pdf
              0%nat ∅ false [] _ _ (run_pairing (acme_run offline_script))
              (CUpload [demo_pdf] (Err (ErrorInstance (lit "network down"))))
              (ErrorInstance (lit "network down")))
    as (_ & Hflag & Hstatus & _).
  - rewrite Hcalls. left. reflexivity.
  - reflexivity.
  - split; [exact Hflag|]. rewrite Hstatus. vm_compute. reflexivity.
Defined.

Lemma falsy_result_is_reported_witness :
  last (calls (snd (acme_run null_upload_script)))
    = Some (CUpload [demo_pdf] (Ok VNull)) /\
  isProcessing (snd (acme_run null_upload_script)) = false /\
  ((length (calls (snd (acme_run null_upload_script))) = 1%nat /\
    statusText (snd (acme_run null_upload_script))
      = lit "Failed to upload file. Please try again.") \/
   (length (calls (snd (acme_run null_upload_script))) = 3%nat /\
    statusText (snd (acme_run null_upload_script))
      = lit "Failed to upload File. Please try again.")).
Proof.
  assert (Hlast : last (calls (snd (acme_run null_upload_script)))
                  = Some (CUpload [demo_pdf] (Ok VNull))).
  { vm_compute. reflexivity. }
  split; [exact Hlast|].
  destruct (falsy_result_is_reported
              (H := scripted null_upload_script)
              (lit "Acme") (lit "Engineer") (lit "Build things") demo_pdf
              0%nat ∅ false [] _ _ (run_pairing (acme_run null_upload_script)))
    as (Hupload & _).
  exact (Hupload [demo_pdf] VNull Hlast eq_refl).
Defined.

Lemma parse_failure_is_reported_witness :
  parser_inputs (snd (acme_run prose_script))
    = [lit "Sorry, I cannot read this file."] /\
  statusText (snd (acme_run prose_script))
    = lit "Failed to parse AI response. Please try again." /\
  isProcessing (snd (acme_run prose_script)) = false.
Proof.
  assert (Hin : parser_inputs (snd (acme_run prose_script))
                = [lit "Sorry, I cannot read this file."]).
  { vm_compute. reflexivity. }
  split; [exact Hin|].
  destruct (parse_failure_is_reported
              (H := scripted prose_script)
              (lit "Acme") (lit "Engineer") (lit "Build things") demo_pdf
              0%nat ∅ false [] _ _ (run_pairing (acme_run prose_script))
              (lit "Sorry, I cannot read this file.")
              (ErrorInstance (lit "Unexpected token")) Hin)
    as (_ & Hflag & Hstatus & _).
  - vm_compute. reflexivity.
  - split; [exact Hstatus|exact Hflag].
Defined.

Lemma null_parse_result_is_an_error_witness :
  parser_inputs (snd (acme_run null_json_script)) = [lit "null"] /\
  statusText (snd (acme_run null_json_script))
    = lit "Error: Cannot read properties of null (reading 'overallScore')" /\
  isProcessing (snd (acme_run null_json_script)) = false.
Proof.
  assert (Hin : parser_inputs (snd (acme_run null_json_script)) = [lit "null"]).
  { vm_compute. reflexivity. }
  split; [exact Hin|].
  destruct (null_parse_result_is_an_error
              (H := scripted null_json_script)
              (lit "Acme") (lit "Engineer") (lit "Build things") demo_pdf
              0%nat ∅ false [] _ _ (run_pairing (acme_run null_json_script))
              (lit "null") VNull
              (type_error_read (lit "null") (lit "overallScore")) Hin)
    as (_ & Hflag & Hstatus & _).
  - vm_compute. reflexivity.
  - reflexivity.
  - split; [|exact Hflag]. rewrite Hstatus. vm_compute. reflexivity.
Defined.

Lemma extraction_error_is_reported_witness :
  extractFeedbackText (VObj [(lit "error", VStr (lit "quota"))])
    = Err (type_error_read (lit "undefined") (lit "content")) /\
  statusText (snd (acme_run no_message_script))
    = lit "Error: Cannot read properties of undefined (reading 'content')" /\
  parser_inputs (snd (acme_run no_message_script)) = [].
Proof.
  assert (Hext : extractFeedbackText (VObj [(lit "error", VStr (lit "quota"))])
                 = Err (type_error_read (lit "undefined") (lit "content"))).
  { vm_compute. reflexivity. }
  split; [exact Hext|].
  destruct (extraction_error_is_reported
              (H := scripted no_message_script)
              (lit "Acme") (lit "Engineer") (lit "Build things") demo_pdf
              0%nat ∅ false [] _ _ (run_pairing (acme_run no_message_script))
              demo_path demo_instructions
              (VObj [(lit "error", VStr (lit "quota"))])
              (type_error_read (lit "undefined") (lit "content")))
    as (_ & _ & Hstatus & Hparser & _).
  - vm_compute. auto 10.
  - reflexivity.
  - exact Hext.
  - split; [|exact Hparser]. rewrite Hstatus. vm_compute. reflexivity.
Defined.

Lemma empty_text_is_invalid_response_witness :
  extractFeedbackText (ai_message (VStr [])) = Ok (VStr []) /\
  statusText (snd (acme_run empty_content_script))
    = lit "Invalid AI response format. Please try again." /\
  parser_inputs (snd (acme_run empty_content_script)) = [].
Proof.
  assert (Hext : extractFeedbackText (ai_message (VStr [])) = Ok (VStr [])).
  { vm_compute. reflexivity. }
  split; [exact Hext|].
  destruct (empty_text_is_invalid_response
              (H := scripted empty_content_script)
              (lit "Acme") (lit "Engineer") (lit "Build things") demo_pdf
              0%nat ∅ false [] _ _ (run_pairing (acme_run empty_content_script))
              demo_path demo_instructions (ai_message (VStr [])) (VStr []))
    as (_ & _ & Hstatus & Hparser & _).
  - vm_compute. auto 10.
  - reflexivity.
  - exact Hext.
  - reflexivity.
  - split; [exact Hstatus|exact Hparser].
Defined.

Lemma non_string_text_is_an_error_witness :
  extractFeedbackText
    (ai_message (VArr [VObj [(lit "type", VStr (lit "text")); (lit "text", int 42)]]))
    = Ok (int 42) /\
  isProcessing (snd (acme_run number_text_script)) = false /\
  (exists message,
     statusText (snd (acme_run number_text_script)) = lit "Error: " ++ message) /\
  parser_inputs (snd (acme_run number_text_script)) = [].
Proof.
  assert (Hext : extractFeedbackText
                   (ai_message
                      (VArr [VObj [(lit "type", VStr (lit "text"));
                                   (lit "text", int 42)]]))
                 = Ok (int 42)).
  { vm_compute. reflexivity. }
  split; [exact Hext|].
  destruct (non_string_text_is_an_error
              (H := scripted number_text_script)
              (lit "Acme") (lit "Engineer") (lit "Build things") demo_pdf
              0%nat ∅ false [] _ _ (run_pairing (acme_run number_text_script))
              demo_path demo_instructions
              (ai_message
                 (VArr [VObj [(lit "type", VStr (lit "text")); (lit "text", int 42)]]))
              (int 42))
    as (_ & Hrest).
  - vm_compute. auto 10.
  - reflexivity.
  - exact Hext.
  - reflexivity.
  - intros s Hs. discriminate Hs.
  - exact Hrest.
Defined.

Lemma good_run_navigated : navigated (snd (acme_run good_script)).
Proof. exists (lit "/resume/" ++ demo_uuid). vm_compute. reflexivity. Defined.

Lemma completed_run_state_witness :
  navigated (snd (acme_run good_script)) /\
  isProcessing (snd (acme_run good_script)) = true /\
  statusText (snd (acme_run good_script)) = lit "Analysis Complete! Redirecting...".
Proof.
  split; [exact good_run_navigated|].
  destruct (completed_run_state
              (H := scripted good_script)
              (lit "Acme") (lit "Engineer") (lit "Build things") demo_pdf
              0%nat ∅ false [] _ _ (run_pairing (acme_run good_script))
              good_run_navigated)
    as (_ & Hflag & Hstatus & _).
  split; [exact Hflag|exact Hstatus].
Defined.

Lemma store_is_only_extended_at_one_key_witness :
  kv (snd (acme_run good_script)) !! demo_key <> None /\
  kv (snd (acme_run good_script)) !! lit "settings" = None.
Proof.
  assert (Hkey : kv (snd (acme_run good_script)) !! demo_key
                 <> (∅ : gmap JsString JsString) !! demo_key).
  { vm_compute. discriminate. }
  split; [exact Hkey|].
  destruct (decide (kv (snd (acme_run good_script)) !! lit "settings"
                    = (∅ : gmap JsString JsString) !! lit "settings"))
    as [Hsame|Hdiff]; [exact Hsame|].
  pose proof (proj2 (store_is_only_extended_at_one_key
                       (H := scripted good_script)
                       (lit "Acme") (lit "Engineer") (lit "Build things") demo_pdf
                       0%nat ∅ false [] _ _ (run_pairing (acme_run good_script)))
                    _ _ Hdiff Hkey) as Heq.
  vm_compute in Heq. discriminate Heq.
Defined.

Lemma data_flow_between_calls_witness :
  In (CFeedback demo_path demo_instructions
        (Ok (ai_message (VStr (fenced good_feedback)))))
     (calls (snd (acme_run good_script))) /\
  exists uploaded,
    calls (snd (acme_run good_script)) !! 0%nat
      = Some (CUpload [demo_pdf] (Ok uploaded)) /\
    get_prop uploaded (lit "path") = Ok demo_path.
Proof.
  assert (Hin : In (CFeedback demo_path demo_instructions
                      (Ok (ai_message (VStr (fenced good_feedback)))))
                   (calls (snd (acme_run good_script)))).
  { vm_compute. auto 10. }
  split; [exact Hin|].
  destruct (data_flow_between_calls
              (H := scripted good_script)
              (lit "Acme") (lit "Engineer") (lit "Build things") demo_pdf
              0%nat ∅ false [] _ _ (run_pairing (acme_run good_script)))
    as (_ & Hflow).
  destruct (Hflow _ _ _ Hin) as (uploaded & Hfirst & Hpath & _).
  exists uploaded. split; [exact Hfirst|exact Hpath].
Defined.

Lemma prose_run_not_navigated : ~ navigated (snd (acme_run prose_script)).
Proof. intros [to Hlast]. vm_compute in Hlast. discriminate Hlast. Defined.

Lemma view_after_run_witness :
  statusText (snd (acme_run prose_script))
    = lit "Failed to parse AI response. Please try again." /\
  render (mkComponent demo_pdf (snd (acme_run prose_script)))
    = mkView (lit "Drop your resume for an ATS score and improvement tips")
             false true.
Proof.
  split; [vm_compute; reflexivity|].
  exact (proj2 (view_after_run
                  (H := scripted prose_script)
                  (lit "Acme") (lit "Engineer") (lit "Build things") demo_pdf
                  0%nat ∅ false [] _ _ (run_pairing (acme_run prose_script)))
               prose_run_not_navigated).
Defined.

Lemma submit_without_form_or_file_witness :
  handleSubmit (H := scripted good_script) (mkSubmitEvent (Some acme_form))
               (handleFileSelect VNull (mkComponent demo_pdf (start 0%nat ∅ false [])))
  = Some (mkSubmitted true (mkComponent VNull (start 0%nat ∅ false []))).
Proof.
  apply (submit_without_form_or_file
           (H := scripted good_script) (mkSubmitEvent (Some acme_form))
           (handleFileSelect VNull (mkComponent demo_pdf (start 0%nat ∅ false [])))).
  right. reflexivity.
Defined.

Lemma submit_runs_analysis_witness :
  exists st,
    acme_run good_script = (Ok VUndefined, st) /\
    handleSubmit (H := scripted good_script) (mkSubmitEvent (Some acme_form))
                 (handleFileSelect demo_pdf (mounted 0%nat ∅))
    = Some (mkSubmitted true (mkComponent demo_pdf st)) /\
    (navigated st \/ form_shown (render (mkComponent demo_pdf st)) = true).
Proof.
  apply (submit_runs_analysis
           (H := scripted good_script) (mkSubmitEvent (Some acme_form)) acme_form
           (lit "Acme") (lit "Engineer") (lit "Build things") VNull demo_pdf
           0%nat ∅ false []); reflexivity.
Defined.
